(** * Verification of the LLM laboratory pipeline (lab_8_llm/main.py)

    A shallow embedding of the importer, the preprocessor, the dataset
    adapter and the single-sample inference wrapper, together with the part
    of the pandas and Python semantics that these four classes rely on.

    Conventions of the embedding.
    - A Python [str] is a [string]; one character of the model stands for
      one code point, so [String.length] is Python's [len].
    - A Python [int] that can be negative is a [Z]; counts are [nat].
    - A raised exception is the [Raise] branch of [result]; statements are
      sequenced with the bind of that monad, in Python's evaluation order.
    - The decorator [report_time] only measures and prints the running
      time of the call it wraps and hands the result (or the exception)
      through; it is not represented. *)

From Stdlib Require Import Ascii.
From stdpp Require Import gmap strings list.

Open Scope string_scope.

(** ** Exceptions and fallible computations *)

Inductive exn : Set :=
  | TypeError
  | KeyError
  | ValueError
  | IndexError
  | ServiceError (what : string).

Inductive result (A : Type) : Type :=
  | Ok (a : A)
  | Raise (e : exn).
Global Arguments Ok {A} a.
Global Arguments Raise {A} e.

Global Instance result_ret : MRet result := λ A a, Ok a.
Global Instance result_bind : MBind result := λ A B f r,
  match r with
  | Ok a => f a
  | Raise e => Raise e
  end.

Definition raises {A} (r : result A) : Prop := ∃ e, r = Raise e.
Definition returns {A} (r : result A) : Prop := ∃ a, r = Ok a.

(** ** Python built-ins used by the source *)

Module Py.

(** [seq[i]] on a tuple or list, for an index [i >= 0]. *)
Definition getitem {A} (l : list A) (i : nat) : result A :=
  match l !! i with
  | Some a => Ok a
  | None => Raise IndexError
  end.

(** [s[n:]] on a [str], for [n >= 0]: the string without its first [n]
    characters, the empty string when it has fewer. *)
Fixpoint slice_from (n : nat) (s : string) : string :=
  match n, s with
  | 0, _ => s
  | S n', String _ s' => slice_from n' s'
  | S _, EmptyString => EmptyString
  end.

(** The loop of [min(iterable, key=key)] and [max(iterable, key=key)]
    after the first item: [better k kbest] is [k < kbest] for [min] and
    [k > kbest] for [max], so among equal keys the first item stays. *)
Fixpoint select_loop {A} (better : nat → nat → bool) (key : A → result nat)
    (best : A) (kbest : nat) (l : list A) : result A :=
  match l with
  | [] => Ok best
  | y :: l' =>
      ky ← key y;
      if better ky kbest
      then select_loop better key y ky l'
      else select_loop better key best kbest l'
  end.

Definition select {A} (better : nat → nat → bool) (key : A → result nat)
    (l : list A) : result A :=
  match l with
  | [] => Raise ValueError
  | x :: l' => kx ← key x; select_loop better key x kx l'
  end.

Definition min {A} (l : list A) (key : A → result nat) : result A :=
  select Nat.ltb key l.
Definition max {A} (l : list A) (key : A → result nat) : result A :=
  select (λ k kbest, Nat.ltb kbest k) key l.

End Py.

(** ** The pandas data model *)

(** A cell of a table: a string, an integer, or a missing value ([None],
    [NaN] and [pd.NA] are all missing for [isna] and [dropna]). *)
Inductive cell : Set :=
  | Str (s : string)
  | Int (z : Z)
  | NA.

Global Instance cell_eq_dec : EqDecision cell.
Proof. solve_decision. Defined.

(** [len(x)] on a cell: only a [str] has a length. *)
Definition len (c : cell) : result nat :=
  match c with
  | Str s => Ok (String.length s)
  | Int _ | NA => Raise TypeError
  end.

(** A Series: labelled values, in order. *)
Definition Series (K A : Type) : Type := list (K * A).

(** A DataFrame: the column labels in order, and the rows in order, each
    with its row label and its cells (one per column). *)
Record DataFrame (A : Type) : Type := mkDataFrame {
  columns : list string;
  rows : list (Z * list A)
}.
Global Arguments mkDataFrame {A} columns rows.
Global Arguments columns {A} d.
Global Arguments rows {A} d.

(** What pandas guarantees of a frame, and [load_dataset(..).to_pandas()]
    of its labels: every row has one cell per column, and the column
    labels are distinct (one column per feature name). *)
Definition wf_frame {A} (df : DataFrame A) : Prop :=
  NoDup (columns df) ∧
  Forall (λ r, length r.2 = length (columns df)) (rows df).

Global Instance wf_frame_dec {A} (df : DataFrame A) : Decision (wf_frame df).
Proof. unfold wf_frame. apply _. Defined.

Module pd.

Section frame.
Context {A : Type}.

(** [len(df)] and [df.shape]. *)
Definition length (df : DataFrame A) : nat := List.length (rows df).
Definition shape (df : DataFrame A) : nat * nat :=
  (List.length (rows df), List.length (columns df)).

(** Position of the first column with a given label. *)
Definition get_loc (labels : list string) (label : string) : option nat :=
  fst <$> list_find (λ c, c = label) labels.

(** [df[label]]: the column as a Series over the row labels. *)
Definition getitem (df : DataFrame A) (label : string)
    : result (Series Z A) :=
  match get_loc (columns df) label with
  | None => Raise KeyError
  | Some j => Ok (omap (λ r, pair r.1 <$> r.2 !! j) (rows df))
  end.

(** Iterating a Series yields its values. *)
Definition values {K} (s : Series K A) : list A := s.*2.

(** [series[label]]. *)
Definition series_getitem (s : Series string A) (label : string)
    : result A :=
  match list_find (λ p, p.1 = label) s with
  | Some (_, p) => Ok p.2
  | None => Raise KeyError
  end.

(** [df.iloc[i]] for an integer [i]: the row at position [i] as a
    Series over the column labels; a negative position counts from the
    end, and a position outside [-n, n) is an [IndexError]. *)
Definition iloc (df : DataFrame A) (i : Z) : result (Series string A) :=
  let n := Z.of_nat (List.length (rows df)) in
  if decide (- n ≤ i < n)%Z then
    match rows df !! Z.to_nat (if decide (i < 0)%Z then i + n else i)%Z with
    | Some r => Ok (zip (columns df) r.2)
    | None => Raise IndexError
    end
  else Raise IndexError.

(** [df.rename(columns=mapper)]: labels in the mapper are replaced,
    the others are kept; labels of the mapper that are absent from the
    frame are ignored. *)
Definition rename (mapper : gmap string string) (df : DataFrame A)
    : DataFrame A :=
  mkDataFrame ((λ c, default c (mapper !! c)) <$> columns df) (rows df).

(** The cells of a row whose column label is not among [labels]. *)
Fixpoint project (labels : list string) (cols : list string)
    (r : list A) : list A :=
  match cols, r with
  | c :: cols', x :: r' =>
      if decide (c ∉ labels) then x :: project labels cols' r'
      else project labels cols' r'
  | _, _ => []
  end.

(** [df.drop(columns=labels)]: a [KeyError] when one of the labels is
    not a column, else the frame without the columns so labelled. *)
Definition drop (labels : list string) (df : DataFrame A)
    : result (DataFrame A) :=
  if decide (Forall (λ c, c ∈ columns df) labels) then
    Ok (mkDataFrame (filter (λ c, c ∉ labels) (columns df))
          ((λ r, (r.1, project labels (columns df) r.2)) <$> rows df))
  else Raise KeyError.

(** [df.duplicated()] with the default [keep='first']: a row is marked
    when an earlier row has the same cells. *)
Fixpoint duplicated_from `{EqDecision A} (seen : list (list A))
    (rs : list (Z * list A)) : Series Z bool :=
  match rs with
  | [] => []
  | r :: rs' =>
      (r.1, bool_decide (r.2 ∈ seen)) :: duplicated_from (r.2 :: seen) rs'
  end.
Definition duplicated `{EqDecision A} (df : DataFrame A) : Series Z bool :=
  duplicated_from [] (rows df).

End frame.

(** An element-wise operation: labels stay, every cell is mapped. *)
Definition map_cells {A B} (f : A → B) (df : DataFrame A) : DataFrame B :=
  mkDataFrame (columns df) ((λ r : Z * list A, (r.1, f <$> r.2)) <$> rows df).

(** [df.replace(to_replace, value)] for scalars. *)
Definition replace (to_replace value : cell) (df : DataFrame cell)
    : DataFrame cell :=
  map_cells (λ c, if decide (c = to_replace) then value else c) df.

(** [df.isna()]. *)
Definition isna (df : DataFrame cell) : DataFrame bool :=
  map_cells (λ c, bool_decide (c = NA)) df.

(** [df.dropna()]: the rows without a missing cell, labels kept. *)
Definition dropna (df : DataFrame cell) : DataFrame cell :=
  mkDataFrame (columns df)
    (filter (λ r, Forall (λ c, c ≠ NA) r.2) (rows df)).

(** [df.reset_index()]: the old row labels become a new first column and
    the rows are numbered from 0. The new column is called "index", or
    "level_0" when "index" is taken; inserting a label that exists is a
    [ValueError]. *)
Definition reset_index (df : DataFrame cell) : result (DataFrame cell) :=
  let name := if decide ("index" ∈ columns df) then "level_0" else "index" in
  if decide (name ∈ columns df) then Raise ValueError
  else Ok (mkDataFrame (name :: columns df)
             (imap (λ i r, (Z.of_nat i, Int r.1 :: r.2)) (rows df))).

(** [series.sum()] on booleans counts the [True] values. *)
Definition sum_bool {K} (s : Series K bool) : nat :=
  List.length (filter (λ p, p.2 = true) s).

(** [df.sum()] on a frame of booleans: per column, the number of rows
    that hold [True] there. *)
Definition sum_columns (df : DataFrame bool) : Series string nat :=
  imap (λ j c, (c, List.length (filter (λ r, r.2 !! j = Some true) (rows df))))
    (columns df).

(** [series.sum()] on numbers. *)
Definition sum {K} (s : Series K nat) : nat := sum_list s.*2.

End pd.

(** ** The classes of lab_8_llm/main.py *)

(** Methods that assign to [self] are written in state-passing style: they
    take the object and give back the object after the call. *)

Module RawDataImporter.

(** What the attribute [_raw_data] can hold, as far as
    [isinstance(_, pd.DataFrame)] can tell. *)
Inductive pyobj : Type :=
  | PyNone
  | PyFrame (df : DataFrame cell)
  | PyOther.

Definition is_frame (v : pyobj) : bool :=
  match v with
  | PyFrame _ => true
  | PyNone | PyOther => false
  end.

(** The attributes are those the base class declares. *)
Record t : Type := mk {
  _hf_name : string;
  _raw_data : pyobj
}.

Section hub.
(** [load_dataset(name, split='train').to_pandas()] is the remote hub:
    for a dataset name it yields an object or raises. *)
Variable load_train_split : string → result pyobj.

(** [obtain]: the attribute is assigned before the type is checked, so
    the object changes also when [TypeError] is raised. *)
Definition obtain (self : t) : t * result unit :=
  match load_train_split (_hf_name self) with
  | Raise e => (self, Raise e)
  | Ok v =>
      let self' := mk (_hf_name self) v in
      if negb (is_frame (_raw_data self'))
      then (self', Raise TypeError)
      else (self', Ok ())
  end.
End hub.

(** The property [raw_data]. *)
Definition raw_data (self : t) : result (DataFrame cell) :=
  match _raw_data self with
  | PyFrame df => Ok df
  | PyNone | PyOther => Raise TypeError
  end.

End RawDataImporter.

Module RawDataPreprocessor.

(** The attributes are those the base class declares: the raw table
    given to the constructor, and the processed table, absent until
    [transform] has run. *)
Record t : Type := mk {
  _raw_data : DataFrame cell;
  _data : option (DataFrame cell)
}.

Definition analyze (self : t) : result (gmap string nat) :=
  empty_rows_free ←
    pd.reset_index (pd.dropna (pd.replace (Str "") NA (_raw_data self)));
  let number_of_samples := (pd.shape (_raw_data self)).1 in
  let number_of_columns := (pd.shape (_raw_data self)).2 in
  let duplicates := pd.sum_bool (pd.duplicated (_raw_data self)) in
  let empty_rows :=
    pd.sum (pd.sum_columns (pd.isna (pd.replace (Str "") NA (_raw_data self)))) in
  instruction ← pd.getitem empty_rows_free "instruction";
  shortest ← Py.min (pd.values instruction) len;
  sample_min_len ← len shortest;
  instruction' ← pd.getitem empty_rows_free "instruction";
  longest ← Py.max (pd.values instruction') len;
  sample_max_len ← len longest;
  mret (<["dataset_number_of_samples" := number_of_samples]>
        (<["dataset_columns" := number_of_columns]>
        (<["dataset_duplicates" := duplicates]>
        (<["dataset_empty_rows" := empty_rows]>
        (<["dataset_sample_min_len" := sample_min_len]>
        (<["dataset_sample_max_len" := sample_max_len]> ∅)))))).

(** [transform]: when [drop] raises, nothing has been assigned. *)
Definition transform (self : t) : result t :=
  data ←
    pd.drop ["input"; "text"]
      (pd.rename (<["instruction" := "question"]> (<["output" := "target"]> ∅))
         (_raw_data self));
  mret (mk (_raw_data self) (Some data)).

End RawDataPreprocessor.

Module TaskDataset.

Record t : Type := mk { _data : DataFrame cell }.

Definition __len__ (self : t) : nat := pd.length (_data self).

Definition __getitem__ (self : t) (index : Z) : result (cell * cell) :=
  row ← pd.iloc (_data self) index;
  question ← pd.series_getitem row "question";
  row' ← pd.iloc (_data self) index;
  target ← pd.series_getitem row' "target";
  mret (question, target).

Definition data (self : t) : DataFrame cell := _data self.

End TaskDataset.

Module LLMPipeline.

Record t : Type := mk {
  _model_name : string;
  _dataset : TaskDataset.t;
  _max_length : Z;
  _batch_size : Z;
  _device : string
}.

Section services.
(** The tokenizer and the model are external services over token
    tensors; each call yields a value or raises. *)
Context {tensor : Type}.
(** [self._tokenizer(text, max_length=n, padding=True, truncation=True,
    return_tensors='pt')] *)
Variable tokenizer : string → Z → result tensor.
(** [self._model.generate] on the unpacked tokens, with [max_length=n] *)
Variable generate : tensor → Z → result tensor.
(** [self._tokenizer.batch_decode(tokens, skip_special_tokens=True)] *)
Variable batch_decode : tensor → result (list string).

(** The annotated return type is [str | None]. *)
Definition infer_sample (self : t) (sample : list string)
    : result (option string) :=
  question ← Py.getitem sample 0;
  tokens ← tokenizer question (_max_length self);
  output_tokens ← generate tokens (_max_length self);
  decoded ← batch_decode output_tokens;
  first ← Py.getitem decoded 0;
  question' ← Py.getitem sample 0;
  mret (Some (Py.slice_from (String.length question' + 1) first)).
End services.

End LLMPipeline.

(** ** Vocabulary of the specification *)

(** The cell of a row under a column label. *)
Definition row_cell {A} (labels : list string) (r : list A) (label : string)
    : option A :=
  j ← pd.get_loc labels label; r !! j.

(** The cell at a row position and a column label. *)
Definition cell_at {A} (df : DataFrame A) (i : nat) (label : string)
    : option A :=
  r ← rows df !! i; row_cell (columns df) r.2 label.

(** An empty cell: the empty string or a missing value. *)
Definition empty_cell (c : cell) : Prop := c = Str "" ∨ c = NA.

Global Instance empty_cell_dec c : Decision (empty_cell c).
Proof. unfold empty_cell. apply _. Defined.

(** A row without an empty cell. *)
Definition complete_row (r : list cell) : Prop :=
  Forall (λ c, ¬ empty_cell c) r.

Global Instance complete_row_dec r : Decision (complete_row r).
Proof. unfold complete_row. apply _. Defined.

(** The length of a text cell (0 for a cell that is not text). *)
Definition cell_length (c : cell) : nat :=
  match c with
  | Str s => String.length s
  | Int _ | NA => 0
  end.

(** The number of empty cells of a table. *)
Definition empty_cells (df : DataFrame cell) : nat :=
  length (filter empty_cell (concat (rows df).*2)).

(** The number of duplicated rows: the rows beyond the distinct ones. *)
Definition duplicated_rows (df : DataFrame cell) : nat :=
  length (rows df) - length (remove_dups (rows df).*2).

(** [n] is the length of the instruction string of a row without an empty
    cell. *)
Definition sample_length (df : DataFrame cell) (n : nat) : Prop :=
  ∃ r s, r ∈ rows df ∧ complete_row r.2 ∧
         row_cell (columns df) r.2 "instruction" = Some (Str s) ∧
         String.length s = n.

(** A table of free text: no cell is a number. *)
Definition text_frame (df : DataFrame cell) : Prop :=
  Forall (λ r, Forall (λ c, ∀ z, c ≠ Int z) r.2) (rows df).

(** The columns of a raw table and of a clean table, in any order. *)
Definition raw_columns (df : DataFrame cell) : Prop :=
  columns df ≡ₚ ["instruction"; "input"; "output"; "text"].
Definition clean_columns (df : DataFrame cell) : Prop :=
  columns df ≡ₚ ["question"; "target"].

(** ** Concrete tables *)

Module Examples.

(** Three rows, the second a duplicate of the first, the third with an
    empty instruction. *)
Definition three_rows : DataFrame cell :=
  mkDataFrame ["instruction"; "input"; "output"; "text"]
    [ (0%Z, [Str "Add"; Str "1 2"; Str "3"; Str "Add 1 2 3"]);
      (1%Z, [Str "Add"; Str "1 2"; Str "3"; Str "Add 1 2 3"]);
      (2%Z, [Str ""; Str "x"; Str "y"; Str "x y"]) ].

(** One row, whose input context is empty. *)
Definition no_complete_row : DataFrame cell :=
  mkDataFrame ["instruction"; "input"; "output"; "text"]
    [ (0%Z, [Str "Say hi"; Str ""; Str "hi"; Str "Say hi hi"]) ].

(** A raw table whose columns come in another order. *)
Definition shuffled : DataFrame cell :=
  mkDataFrame ["text"; "output"; "input"; "instruction"]
    [ (0%Z, [Str "t0"; Str "o0"; Str "i0"; Str "q0"]);
      (1%Z, [Str "t1"; NA; Str ""; Str "q1"]) ].

(** A table without the rendered text. *)
Definition no_text : DataFrame cell :=
  mkDataFrame ["instruction"; "input"; "output"]
    [ (0%Z, [Str "q0"; Str "i0"; Str "o0"]) ].

(** A clean table of five rows. *)
Definition five_rows : DataFrame cell :=
  mkDataFrame ["question"; "target"]
    [ (0%Z, [Str "q0"; Str "t0"]); (1%Z, [Str "q1"; Str "t1"]);
      (2%Z, [Str "q2"; Str "t2"]); (3%Z, [Str "q3"; Str "t3"]);
      (4%Z, [Str "q4"; Str "t4"]) ].

(** A model that echoes the prompt, a space, and then the prompt again
    before going on; tensors are the text they stand for. *)
Definition echo_tokenizer (text : string) (n : Z) : result string := Ok text.
Definition echo_twice (tokens : string) (n : Z) : result string :=
  Ok (tokens +:+ " " +:+ tokens +:+ "!").
Definition decode_one (tokens : string) : result (list string) := Ok [tokens].

(** A model whose generation step fails. *)
Definition failing_generate (tokens : string) (n : Z) : result string :=
  Raise (ServiceError "generate").

(** A decoder that produces no output. *)
Definition decode_none (tokens : string) : result (list string) := Ok [].

Definition pipeline : LLMPipeline.t :=
  LLMPipeline.mk "model" (TaskDataset.mk five_rows) 120 1 "cpu".

(** A hub that serves one table, and one that serves something else. *)
Definition hub_table (name : string) : result RawDataImporter.pyobj :=
  Ok (RawDataImporter.PyFrame three_rows).
Definition hub_other (name : string) : result RawDataImporter.pyobj :=
  Ok RawDataImporter.PyOther.

End Examples.

Module MoreExamples.

(** A table that already has the two labels [reset_index] can give to the
    column it adds. *)
Definition index_taken : DataFrame cell :=
  mkDataFrame ["index"; "level_0"; "instruction"]
    [ (0%Z, [Str "a"; Str "b"; Str "Say hi"]) ].

(** A table whose instruction column holds two strings and, in a row
    with an empty cell, nothing. *)
Definition two_samples : DataFrame cell :=
  mkDataFrame ["instruction"; "note"]
    [ (0%Z, [Str "Sum"; Str "x"]); (1%Z, [Str "Multiply"; Str "y"]);
      (2%Z, [NA; Str "z"]) ].

(** An importer that holds a table. *)
Definition loaded : RawDataImporter.t :=
  RawDataImporter.mk "hub/name" (RawDataImporter.PyFrame Examples.three_rows).

(** A hub that cannot be reached. *)
Definition hub_down (name : string) : result RawDataImporter.pyobj :=
  Raise (ServiceError "hub").

(** A model that gives back fewer characters than the prompt has. *)
Definition cut_short (tokens : string) (n : Z) : result string := Ok "He".

End MoreExamples.

(** ** Basic facts about the monad and the built-ins *)

Lemma bind_Ok {A B} (f : A → result B) (a : A) : Ok a ≫= f = f a.
Proof. reflexivity. Qed.

Lemma bind_Raise {A B} (f : A → result B) (e : exn) : Raise e ≫= f = Raise e.
Proof. reflexivity. Qed.

Lemma bind_Ok_inv {A B} (f : A → result B) (r : result A) (b : B) :
  r ≫= f = Ok b → ∃ a, r = Ok a ∧ f a = Ok b.
Proof. destruct r as [a|e]; [eauto | discriminate]. Qed.

(** One step of a computation: use the outcome [H] of a call, then let
    the bind pass it on. *)
Ltac step H := rewrite H; simpl.

Lemma raises_not_returns {A} (r : result A) : raises r → ¬ returns r.
Proof. intros [e ->] [a Ha]. discriminate. Qed.

Lemma slice_from_echo (question continuation : string) (sep : Ascii.ascii) :
  Py.slice_from (String.length question + 1)
    (question +:+ String sep continuation) = continuation.
Proof. induction question as [|a q IH]; simpl; [reflexivity | exact IH]. Qed.

(** ** Rows and labels *)

Lemma row_cell_nil {A} (r : list A) (label : string) :
  row_cell [] r label = None.
Proof. reflexivity. Qed.

Lemma row_cell_cons {A} (c : string) (labels : list string) (x : A)
    (r : list A) (label : string) :
  row_cell (c :: labels) (x :: r) label =
  if decide (c = label) then Some x else row_cell labels r label.
Proof.
  unfold row_cell, pd.get_loc. simpl.
  destruct (decide (c = label)); [reflexivity |].
  destruct (list_find _ labels) as [[j y]|]; reflexivity.
Qed.

Lemma row_cell_is_Some {A} (labels : list string) (r : list A) (label : string) :
  length r = length labels → label ∈ labels →
  is_Some (row_cell labels r label).
Proof.
  revert r. induction labels as [|c labels IH]; intros r Hlen Hin.
  - by apply not_elem_of_nil in Hin.
  - destruct r as [|x r]; [discriminate |].
    rewrite row_cell_cons. destruct (decide (c = label)); [by eexists |].
    apply IH; [by injection Hlen |].
    apply elem_of_cons in Hin as [->|]; [done | assumption].
Qed.

(** The label lookup of a row Series is the cell under that label. *)
Lemma series_getitem_zip {A} (labels : list string) (r : list A)
    (label : string) (x : A) :
  row_cell labels r label = Some x →
  pd.series_getitem (zip labels r) label = Ok x.
Proof.
  revert r. induction labels as [|c labels IH]; intros r; [discriminate |].
  destruct r as [|y r].
  { unfold row_cell. by destruct (pd.get_loc _ _). }
  rewrite row_cell_cons. unfold pd.series_getitem. simpl.
  destruct (decide (c = label)); [by intros [= ->] |].
  intros Hc. specialize (IH r Hc). unfold pd.series_getitem in IH.
  destruct (list_find _ (zip labels r)) as [[j p]|]; [exact IH | discriminate].
Qed.

(** Without the label among the columns the lookup is a [KeyError]. *)
Lemma series_getitem_missing {A} (labels : list string) (r : list A)
    (label : string) :
  label ∉ labels → pd.series_getitem (zip labels r) label = Raise KeyError.
Proof.
  revert r. induction labels as [|c labels IH]; intros r Hnin; [reflexivity |].
  destruct r as [|y r]; [reflexivity |].
  apply not_elem_of_cons in Hnin as [Hne Hnin].
  specialize (IH r Hnin). unfold pd.series_getitem in *. simpl.
  destruct (decide (c = label)); [congruence |].
  destruct (list_find _ (zip labels r)) as [[j p]|]; [discriminate | reflexivity].
Qed.

(** ** Positional access *)

Lemma iloc_in_range {A} (df : DataFrame A) (i : Z) :
  (0 ≤ i < Z.of_nat (length (rows df)))%Z →
  ∃ r, rows df !! Z.to_nat i = Some r ∧ pd.iloc df i = Ok (zip (columns df) r.2).
Proof.
  intros Hi. unfold pd.iloc.
  destruct (lookup_lt_is_Some_2 (rows df) (Z.to_nat i)) as [r Hr]; [lia |].
  exists r. split; [exact Hr |].
  rewrite decide_True by lia. rewrite (decide_False (P := (i < 0)%Z)) by lia.
  by rewrite Hr.
Qed.

Lemma iloc_out_of_range {A} (df : DataFrame A) (i : Z) :
  ¬ (- Z.of_nat (length (rows df)) ≤ i < Z.of_nat (length (rows df)))%Z →
  pd.iloc df i = Raise IndexError.
Proof. intros Hi. unfold pd.iloc. by rewrite decide_False. Qed.

Lemma iloc_negative {A} (df : DataFrame A) (i : Z) :
  (- Z.of_nat (length (rows df)) ≤ i < 0)%Z →
  pd.iloc df i = pd.iloc df (i + Z.of_nat (length (rows df))).
Proof.
  intros Hi. unfold pd.iloc.
  rewrite !decide_True by lia.
  rewrite decide_False by lia.
  reflexivity.
Qed.

(** The general form of indexed retrieval: on a frame that has the two
    columns, a position in range yields the two cells of that row. *)
Lemma getitem_cells (self : TaskDataset.t) (i : Z) :
  wf_frame (TaskDataset._data self) →
  "question" ∈ columns (TaskDataset._data self) →
  "target" ∈ columns (TaskDataset._data self) →
  (0 ≤ i < Z.of_nat (TaskDataset.__len__ self))%Z →
  ∃ q t, cell_at (TaskDataset._data self) (Z.to_nat i) "question" = Some q ∧
         cell_at (TaskDataset._data self) (Z.to_nat i) "target" = Some t ∧
         TaskDataset.__getitem__ self i = Ok (q, t).
Proof.
  destruct self as [df]. simpl. intros [_ Hrows] Hq Ht Hi.
  destruct (iloc_in_range df i Hi) as (r & Hr & Hiloc).
  assert (Hlen : length r.2 = length (columns df)).
  { rewrite Forall_forall in Hrows. apply Hrows.
    by apply list_elem_of_lookup_2 in Hr. }
  destruct (row_cell_is_Some (columns df) r.2 "question" Hlen Hq) as [q Hcq].
  destruct (row_cell_is_Some (columns df) r.2 "target" Hlen Ht) as [t Hct].
  exists q, t. unfold cell_at. rewrite Hr. simpl.
  split; [exact Hcq |]. split; [exact Hct |].
  unfold TaskDataset.__getitem__. simpl. rewrite Hiloc. simpl.
  rewrite (series_getitem_zip _ _ _ _ Hcq). simpl.
  by rewrite (series_getitem_zip _ _ _ _ Hct).
Qed.

(** ** The dataset adapter *)

(** C4. For a clean table, the length of the dataset adapter is the number
    of rows of the table, and for every index [i] with [0 <= i < length]
    the retrieval at [i] returns the pair made of the cell of row [i] in
    the column "question" and the cell of row [i] in the column "target". *)
Theorem getitem_returns_row_pair (self : TaskDataset.t) :
  wf_frame (TaskDataset._data self) →
  clean_columns (TaskDataset._data self) →
  TaskDataset.__len__ self = length (rows (TaskDataset._data self)) ∧
  ∀ i : Z, (0 ≤ i < Z.of_nat (TaskDataset.__len__ self))%Z →
    ∃ q t, cell_at (TaskDataset._data self) (Z.to_nat i) "question" = Some q ∧
           cell_at (TaskDataset._data self) (Z.to_nat i) "target" = Some t ∧
           TaskDataset.__getitem__ self i = Ok (q, t).
Proof.
  intros Hwf Hcols. split; [reflexivity |].
  intros i Hi. apply getitem_cells; [assumption | | | assumption].
  - unfold clean_columns in Hcols. rewrite Hcols. apply list_elem_of_here.
  - unfold clean_columns in Hcols. rewrite Hcols.
    apply list_elem_of_further, list_elem_of_here.
Qed.

Lemma getitem_returns_row_pair_witness :
  TaskDataset.__len__ (TaskDataset.mk Examples.five_rows) = 5 ∧
  TaskDataset.__getitem__ (TaskDataset.mk Examples.five_rows) 3
    = Ok (Str "q3", Str "t3").
Proof.
  assert (Hwf : wf_frame Examples.five_rows)
    by (apply (bool_decide_unpack _); vm_compute; reflexivity).
  assert (Hcols : clean_columns Examples.five_rows)
    by (unfold clean_columns; reflexivity).
  destruct (getitem_returns_row_pair (TaskDataset.mk Examples.five_rows)
              Hwf Hcols) as [Hlen Hget].
  split; [exact Hlen |].
  assert (Hi : (0 ≤ 3 < Z.of_nat
              (TaskDataset.__len__ (TaskDataset.mk Examples.five_rows)))%Z)
    by (vm_compute; split; congruence).
  destruct (Hget 3%Z Hi) as (q & t & Hq & Ht & Hg).
  rewrite Hg. vm_compute in Hq, Ht. congruence.
Defined.

(** C5 (as amended). For every integer index that lies outside
    [-row count, row count), the retrieval fails with an index error; an
    index in [-row count, 0) counts from the end of the table, so it
    behaves as the index plus the row count. *)
Theorem getitem_out_of_range (self : TaskDataset.t) (index : Z) :
  let n := Z.of_nat (TaskDataset.__len__ self) in
  (¬ (- n ≤ index < n)%Z → TaskDataset.__getitem__ self index = Raise IndexError) ∧
  ((- n ≤ index < 0)%Z →
     TaskDataset.__getitem__ self index = TaskDataset.__getitem__ self (index + n)).
Proof.
  destruct self as [df]. simpl. split; intros Hi.
  - unfold TaskDataset.__getitem__. simpl.
    by rewrite (iloc_out_of_range df index Hi).
  - unfold TaskDataset.__getitem__. simpl.
    by rewrite (iloc_negative df index Hi).
Qed.

Lemma getitem_out_of_range_witness :
  TaskDataset.__len__ (TaskDataset.mk Examples.five_rows) = 5 ∧
  returns (TaskDataset.__getitem__ (TaskDataset.mk Examples.five_rows) 4) ∧
  TaskDataset.__getitem__ (TaskDataset.mk Examples.five_rows) 5 = Raise IndexError.
Proof.
  split; [reflexivity |]. split; [by eexists |].
  apply (proj1 (getitem_out_of_range (TaskDataset.mk Examples.five_rows) 5)).
  change (¬ (-5 ≤ 5 < 5)%Z). lia.
Defined.

(** C5, counterexample to the claim as stated: over a table of five rows
    the index -1 does not satisfy [0 <= index < 5], and the retrieval
    returns the last row. *)
Lemma getitem_negative_index_succeeds :
  ¬ (0 ≤ -1 < Z.of_nat (TaskDataset.__len__ (TaskDataset.mk Examples.five_rows)))%Z ∧
  TaskDataset.__getitem__ (TaskDataset.mk Examples.five_rows) (-1)
    = Ok (Str "q4", Str "t4").
Proof.
  split; [| reflexivity].
  change (¬ (0 ≤ -1 < 5)%Z). lia.
Qed.

(** ** The importer *)

(** C7. While the stored raw data is not a table, the accessor [raw_data]
    fails with a type error; after a successful [obtain] the stored value
    is the table that the hub delivered, and the accessor returns it
    unchanged. *)
Theorem raw_data_needs_obtain
    (hub : string → result RawDataImporter.pyobj) (self : RawDataImporter.t) :
  (RawDataImporter.is_frame (RawDataImporter._raw_data self) = false →
     RawDataImporter.raw_data self = Raise TypeError) ∧
  (∀ self', RawDataImporter.obtain hub self = (self', Ok ()) →
     ∃ df, hub (RawDataImporter._hf_name self) = Ok (RawDataImporter.PyFrame df) ∧
           RawDataImporter._raw_data self' = RawDataImporter.PyFrame df ∧
           RawDataImporter.raw_data self' = Ok df).
Proof.
  split.
  - unfold RawDataImporter.raw_data.
    destruct (RawDataImporter._raw_data self); [reflexivity | discriminate | reflexivity].
  - intros self'. unfold RawDataImporter.obtain.
    destruct (hub (RawDataImporter._hf_name self)) as [v|e]; [| intros [= _ H]; discriminate H].
    destruct v as [|df|]; simpl; intros [= <-].
    exists df. repeat split.
Qed.

Lemma raw_data_needs_obtain_witness :
  RawDataImporter.raw_data (RawDataImporter.mk "hub/name" RawDataImporter.PyNone)
    = Raise TypeError ∧
  RawDataImporter.raw_data
    (RawDataImporter.obtain Examples.hub_table
       (RawDataImporter.mk "hub/name" RawDataImporter.PyNone)).1
    = Ok Examples.three_rows.
Proof.
  destruct (raw_data_needs_obtain Examples.hub_table
              (RawDataImporter.mk "hub/name" RawDataImporter.PyNone)) as [Hbefore Hafter].
  split; [apply Hbefore; reflexivity |].
  destruct (Hafter _ eq_refl) as (df & Hhub & _ & Hget).
  injection Hhub as <-. exact Hget.
Defined.

Example obtain_other_object :
  (RawDataImporter.obtain Examples.hub_other
     (RawDataImporter.mk "hub/name" RawDataImporter.PyNone)).2 = Raise TypeError.
Proof. reflexivity. Qed.

(** When the hub delivers something that is not a table, [obtain] raises
    the type error, and so does the accessor afterwards. *)
Lemma obtain_not_a_table (hub : string → result RawDataImporter.pyobj)
    (self : RawDataImporter.t) (v : RawDataImporter.pyobj) :
  hub (RawDataImporter._hf_name self) = Ok v →
  RawDataImporter.is_frame v = false →
  (RawDataImporter.obtain hub self).2 = Raise TypeError ∧
  RawDataImporter.raw_data (RawDataImporter.obtain hub self).1 = Raise TypeError.
Proof.
  intros Hhub Hv. unfold RawDataImporter.obtain. rewrite Hhub. simpl.
  rewrite Hv. simpl. split; [reflexivity |].
  unfold RawDataImporter.raw_data. simpl. by destruct v.
Qed.

(** ** The inference pipeline *)

Section infer_sample.
Context {tensor : Type}.
Variable tokenizer : string → Z → result tensor.
Variable generate : tensor → Z → result tensor.
Variable batch_decode : tensor → result (list string).
Variable self : LLMPipeline.t.

Local Abbreviation infer := (LLMPipeline.infer_sample tokenizer generate batch_decode self).
Local Abbreviation max_length := (LLMPipeline._max_length self).

(** When the three services answer, the prediction is the first decoded
    string without its first [len(question) + 1] characters. *)
Lemma infer_sample_success (question : string) (rest : list string)
    (tokens output : tensor) (decoded : string) (others : list string) :
  tokenizer question max_length = Ok tokens →
  generate tokens max_length = Ok output →
  batch_decode output = Ok (decoded :: others) →
  infer (question :: rest)
    = Ok (Some (Py.slice_from (String.length question + 1) decoded)).
Proof.
  intros Htok Hgen Hdec. unfold LLMPipeline.infer_sample. simpl.
  step Htok. step Hgen. by step Hdec.
Qed.

(** C3 (as amended). For a sample whose first component is the question,
    when tokenizer, model and decoder answer, [infer_sample] returns the
    first decoded string without its first [len(question) + 1] characters;
    if that string is the question, one separator character and a
    continuation, the result is exactly the continuation. *)
Theorem infer_sample_strips_echo (question : string) (rest : list string)
    (tokens output : tensor) (decoded : string) (others : list string) :
  tokenizer question max_length = Ok tokens →
  generate tokens max_length = Ok output →
  batch_decode output = Ok (decoded :: others) →
  infer (question :: rest)
    = Ok (Some (Py.slice_from (String.length question + 1) decoded)) ∧
  ∀ (sep : Ascii.ascii) (continuation : string),
    decoded = question +:+ String sep continuation →
    infer (question :: rest) = Ok (Some continuation).
Proof.
  intros Htok Hgen Hdec.
  pose proof (infer_sample_success question rest _ _ _ _ Htok Hgen Hdec) as H.
  split; [exact H |].
  intros sep continuation ->. rewrite H. by rewrite slice_from_echo.
Qed.

(** C6 (as amended). [infer_sample] never returns a null result. A
    failure of the tokenizer, of the generation step or of the decoder
    reaches the caller as that same failure, a decoder that yields no
    output makes it fail with an index error, and otherwise it returns
    the prediction string. *)
Theorem infer_sample_propagates (question : string) (rest : list string) :
  infer (question :: rest) ≠ Ok None ∧
  (∀ e, tokenizer question max_length = Raise e →
     infer (question :: rest) = Raise e) ∧
  (∀ tokens e,
     tokenizer question max_length = Ok tokens →
     generate tokens max_length = Raise e →
     infer (question :: rest) = Raise e) ∧
  (∀ tokens output e,
     tokenizer question max_length = Ok tokens →
     generate tokens max_length = Ok output →
     batch_decode output = Raise e →
     infer (question :: rest) = Raise e) ∧
  (∀ tokens output,
     tokenizer question max_length = Ok tokens →
     generate tokens max_length = Ok output →
     batch_decode output = Ok [] →
     infer (question :: rest) = Raise IndexError) ∧
  (∀ tokens output decoded others,
     tokenizer question max_length = Ok tokens →
     generate tokens max_length = Ok output →
     batch_decode output = Ok (decoded :: others) →
     infer (question :: rest)
       = Ok (Some (Py.slice_from (String.length question + 1) decoded))).
Proof.
  unfold LLMPipeline.infer_sample. simpl. repeat split.
  - destruct (tokenizer question max_length) as [tk|]; [simpl | discriminate].
    destruct (generate tk max_length) as [out|]; [simpl | discriminate].
    destruct (batch_decode out) as [[|d ds]|]; discriminate.
  - intros e Htok. by step Htok.
  - intros tk e Htok Hgen. step Htok. by step Hgen.
  - intros tk out e Htok Hgen Hdec. step Htok. step Hgen. by step Hdec.
  - intros tk out Htok Hgen Hdec. step Htok. step Hgen. by step Hdec.
  - intros tk out d ds Htok Hgen Hdec. step Htok. step Hgen. by step Hdec.
Qed.

End infer_sample.

Lemma infer_sample_strips_echo_witness :
  LLMPipeline.infer_sample Examples.echo_tokenizer Examples.echo_twice
    Examples.decode_one Examples.pipeline ["Hello"; "Hi"]
  = Ok (Some "Hello!").
Proof.
  refine (proj2 (infer_sample_strips_echo Examples.echo_tokenizer
                   Examples.echo_twice Examples.decode_one Examples.pipeline
                   "Hello" ["Hi"] "Hello" "Hello Hello!" "Hello Hello!" []
                   _ _ _) " "%char "Hello!" _); reflexivity.
Defined.

(** C3, counterexample to the claim as stated: the model echoes the
    question "hi" and one space and continues with "hi!"; the returned
    string then starts with the question. *)
Lemma infer_sample_result_may_start_with_question :
  Examples.echo_twice "hi" 120 = Ok ("hi" +:+ String " "%char "hi!") ∧
  LLMPipeline.infer_sample Examples.echo_tokenizer Examples.echo_twice
    Examples.decode_one Examples.pipeline ["hi"; "t"] = Ok (Some "hi!") ∧
  String.prefix "hi" "hi!" = true.
Proof. repeat split. Qed.

Lemma infer_sample_propagates_witness :
  LLMPipeline.infer_sample Examples.echo_tokenizer Examples.echo_twice
    Examples.decode_none Examples.pipeline ["hi"; "t"] = Raise IndexError.
Proof.
  refine (proj1 (proj2 (proj2 (proj2 (proj2
            (infer_sample_propagates Examples.echo_tokenizer Examples.echo_twice
               Examples.decode_none Examples.pipeline "hi" ["t"])))))
            "hi" "hi hi!" _ _ _); reflexivity.
Defined.

(** C6, counterexample to the claim as stated: when the generation step
    fails, the caller gets the failure, not a null result. *)
Lemma infer_sample_failure_is_not_null :
  Examples.failing_generate "hi" 120 = Raise (ServiceError "generate") ∧
  LLMPipeline.infer_sample Examples.echo_tokenizer Examples.failing_generate
    Examples.decode_one Examples.pipeline ["hi"; "t"]
    = Raise (ServiceError "generate") ∧
  LLMPipeline.infer_sample Examples.echo_tokenizer Examples.failing_generate
    Examples.decode_one Examples.pipeline ["hi"; "t"] ≠ Ok None.
Proof. repeat split. discriminate. Qed.

(** ** Renaming and dropping columns *)

Local Abbreviation mapper :=
  (<["instruction" := "question"]> (<["output" := "target"]> ∅) : gmap string string).
Local Abbreviation renamed := (λ c : string, default c (mapper !! c)).
Local Abbreviation dropped := ["input"; "text"].

Lemma renamed_label (c : string) :
  renamed c = if decide (c = "instruction") then "question"
              else if decide (c = "output") then "target" else c.
Proof.
  cbv beta.
  rewrite lookup_insert. destruct (decide ("instruction" = c)) as [<-|Hne].
  - reflexivity.
  - rewrite decide_False by congruence.
    rewrite lookup_insert. destruct (decide ("output" = c)) as [<-|Hne'].
    + reflexivity.
    + rewrite decide_False by congruence. by rewrite lookup_empty.
Qed.

(** Renaming neither creates nor removes a column to be dropped. *)
Lemma renamed_dropped (c : string) (cols : list string) :
  c = "input" ∨ c = "text" → (c ∈ renamed <$> cols ↔ c ∈ cols).
Proof.
  intros Hc. rewrite list_elem_of_fmap. split.
  - intros (y & Hy & Hin). rewrite renamed_label in Hy.
    repeat case_decide; destruct Hc; subst; first [discriminate | assumption].
  - intros Hin. exists c. split; [| assumption].
    rewrite renamed_label.
    repeat case_decide; destruct Hc; subst; first [discriminate | reflexivity].
Qed.

Lemma row_cell_nil_r {A} (labels : list string) (label : string) :
  row_cell labels (@nil A) label = None.
Proof. unfold row_cell. by destruct (pd.get_loc labels label). Qed.

Lemma row_cell_project {A} (labels cols : list string) (r : list A)
    (label : string) :
  label ∉ labels →
  row_cell (filter (λ c, c ∉ labels) cols) (pd.project labels cols r) label
  = row_cell cols r label.
Proof.
  intros Hl. revert r. induction cols as [|c cols IH]; intros r.
  - reflexivity.
  - destruct r as [|x r].
    { change (pd.project labels (c :: cols) []) with (@nil A).
      by rewrite !row_cell_nil_r. }
    rewrite filter_cons. simpl. rewrite (row_cell_cons c cols).
    destruct (decide (c ∉ labels)) as [Hc|Hc].
    + rewrite row_cell_cons. by rewrite IH.
    + rewrite IH. rewrite decide_False; [reflexivity |].
      intros ->. contradiction.
Qed.

Lemma project_length {A} (labels cols : list string) (r : list A) :
  length r = length cols →
  length (pd.project labels cols r) = length (filter (λ c, c ∉ labels) cols).
Proof.
  revert r. induction cols as [|c cols IH]; intros r Hlen.
  - by destruct r.
  - destruct r as [|x r]; [discriminate |]. injection Hlen as Hlen.
    rewrite filter_cons. simpl.
    destruct (decide (c ∉ labels)); simpl; by rewrite IH.
Qed.

Lemma row_cell_fmap {A} (f : string → string) (cols : list string)
    (r : list A) (old new : string) :
  (∀ c, c ∈ cols → (f c = new ↔ c = old)) →
  row_cell (f <$> cols) r new = row_cell cols r old.
Proof.
  revert r. induction cols as [|c cols IH]; intros r Hf; [reflexivity |].
  destruct r as [|x r]; [by rewrite !row_cell_nil_r |].
  rewrite fmap_cons, !row_cell_cons.
  rewrite IH by (intros c' Hc'; apply Hf; by right).
  destruct (Hf c (list_elem_of_here _ _)) as [H1 H2].
  destruct (decide (f c = new)), (decide (c = old)); tauto.
Qed.

(** ** The preprocessor: [transform] *)

Lemma drop_present {A} (labels : list string) (df : DataFrame A) :
  Forall (λ c, c ∈ columns df) labels →
  pd.drop labels df
  = Ok (mkDataFrame (filter (λ c, c ∉ labels) (columns df))
          ((λ r, (r.1, pd.project labels (columns df) r.2)) <$> rows df)).
Proof. intros H. unfold pd.drop. by rewrite decide_True. Qed.

Lemma drop_absent {A} (labels : list string) (df : DataFrame A) :
  ¬ Forall (λ c, c ∈ columns df) labels → pd.drop labels df = Raise KeyError.
Proof. intros H. unfold pd.drop. by rewrite decide_False. Qed.

(** What [transform] stores when the two dropped columns are present. *)
Lemma transform_stores (self : RawDataPreprocessor.t) :
  "input" ∈ columns (RawDataPreprocessor._raw_data self) →
  "text" ∈ columns (RawDataPreprocessor._raw_data self) →
  RawDataPreprocessor.transform self
  = Ok (RawDataPreprocessor.mk (RawDataPreprocessor._raw_data self)
          (Some (mkDataFrame
             (filter (λ c, c ∉ dropped)
                (renamed <$> columns (RawDataPreprocessor._raw_data self)))
             ((λ r : Z * list cell,
                 (r.1, pd.project dropped
                         (renamed <$> columns (RawDataPreprocessor._raw_data self))
                         r.2))
                <$> rows (RawDataPreprocessor._raw_data self))))).
Proof.
  intros Hinput Htext. unfold RawDataPreprocessor.transform.
  rewrite drop_present; [reflexivity |].
  simpl. repeat constructor; apply renamed_dropped; auto.
Qed.

(** C10. [transform] fails with a key error whenever the raw table lacks
    the column "input" or the column "text"; when both are present it
    succeeds, whether or not the columns "instruction" and "output", which
    it renames, are there. *)
Theorem transform_needs_input_and_text (self : RawDataPreprocessor.t) :
  ("input" ∉ columns (RawDataPreprocessor._raw_data self) ∨
   "text" ∉ columns (RawDataPreprocessor._raw_data self) →
   RawDataPreprocessor.transform self = Raise KeyError) ∧
  ("input" ∈ columns (RawDataPreprocessor._raw_data self) →
   "text" ∈ columns (RawDataPreprocessor._raw_data self) →
   returns (RawDataPreprocessor.transform self)).
Proof.
  split.
  - intros Hmiss. unfold RawDataPreprocessor.transform.
    rewrite drop_absent; [reflexivity |].
    simpl. rewrite !Forall_cons.
    rewrite !(renamed_dropped _ (columns (RawDataPreprocessor._raw_data self)))
      by auto.
    tauto.
  - intros Hinput Htext. rewrite transform_stores by assumption. by eexists.
Qed.

Lemma transform_needs_input_and_text_witness :
  RawDataPreprocessor.transform (RawDataPreprocessor.mk Examples.no_text None)
    = Raise KeyError ∧
  returns (RawDataPreprocessor.transform
             (RawDataPreprocessor.mk
                (mkDataFrame ["input"; "text"] [(0%Z, [NA; Str "t"])]) None)).
Proof.
  split.
  - apply (proj1 (transform_needs_input_and_text
                    (RawDataPreprocessor.mk Examples.no_text None))).
    right. apply (bool_decide_unpack _). vm_compute. reflexivity.
  - apply (proj2 (transform_needs_input_and_text
                    (RawDataPreprocessor.mk
                       (mkDataFrame ["input"; "text"] [(0%Z, [NA; Str "t"])]) None)));
      apply (bool_decide_unpack _); vm_compute; reflexivity.
Defined.

(** The labels of a raw table, renamed and filtered. *)
Lemma raw_columns_transformed (cols : list string) :
  cols ≡ₚ ["instruction"; "input"; "output"; "text"] →
  filter (λ c, c ∉ dropped) (renamed <$> cols) ≡ₚ ["question"; "target"].
Proof.
  intros Hperm. rewrite Hperm.
  assert (filter (λ c, c ∉ dropped)
            (renamed <$> ["instruction"; "input"; "output"; "text"])
          = ["question"; "target"]) as -> by (vm_compute; reflexivity).
  reflexivity.
Qed.

Lemma raw_columns_elem (cols : list string) (c : string) :
  cols ≡ₚ ["instruction"; "input"; "output"; "text"] →
  c ∈ cols ↔ c = "instruction" ∨ c = "input" ∨ c = "output" ∨ c = "text".
Proof.
  intros Hperm. rewrite Hperm. rewrite !elem_of_cons, elem_of_nil. tauto.
Qed.

(** In a raw table only "instruction" becomes "question", and only
    "output" becomes "target". *)
Lemma raw_columns_renamed (cols : list string) (c : string) :
  cols ≡ₚ ["instruction"; "input"; "output"; "text"] → c ∈ cols →
  (renamed c = "question" ↔ c = "instruction") ∧
  (renamed c = "target" ↔ c = "output").
Proof.
  intros Hperm Hc. apply (raw_columns_elem _ _ Hperm) in Hc.
  cbv beta. rewrite (renamed_label c).
  destruct Hc as [-> | [-> | [-> | ->]]]; split; split;
    first [discriminate | reflexivity].
Qed.

(** C2. For a raw table, that is a table whose columns are "instruction",
    "input", "output" and "text" in any order, [transform] stores a clean
    table whose columns are exactly "question" and "target"; it has the
    rows of the raw table, with the same row labels, the column "question"
    holds the cells of "instruction" and the column "target" the cells of
    "output". *)
Theorem transform_gives_question_and_target (self : RawDataPreprocessor.t) :
  wf_frame (RawDataPreprocessor._raw_data self) →
  raw_columns (RawDataPreprocessor._raw_data self) →
  ∃ clean,
    RawDataPreprocessor.transform self
      = Ok (RawDataPreprocessor.mk (RawDataPreprocessor._raw_data self) (Some clean)) ∧
    wf_frame clean ∧
    clean_columns clean ∧
    (rows clean).*1 = (rows (RawDataPreprocessor._raw_data self)).*1 ∧
    ∀ i, cell_at clean i "question"
           = cell_at (RawDataPreprocessor._raw_data self) i "instruction" ∧
         cell_at clean i "target"
           = cell_at (RawDataPreprocessor._raw_data self) i "output".
Proof.
  destruct self as [raw data]. simpl. intros [Hnodup Hrows] Hperm.
  unfold raw_columns in Hperm.
  eexists. split.
  { apply transform_stores; simpl; apply (raw_columns_elem _ _ Hperm); auto. }
  simpl. pose proof (raw_columns_transformed _ Hperm) as Hclean.
  split; [| split; [exact Hclean | split]].
  - split; simpl.
    + rewrite Hclean. apply (bool_decide_unpack _). vm_compute. reflexivity.
    + rewrite Forall_fmap. eapply Forall_impl; [exact Hrows |].
      intros r Hr. simpl. apply project_length. by rewrite length_fmap.
  - rewrite <- list_fmap_compose. reflexivity.
  - intros i. unfold cell_at. simpl. rewrite list_lookup_fmap.
    destruct (rows raw !! i) as [r|]; simpl; [| done].
    rewrite !row_cell_project
      by (apply (bool_decide_unpack _); vm_compute; reflexivity).
    split; apply row_cell_fmap; intros c Hc;
      apply (raw_columns_renamed _ _ Hperm Hc).
Qed.

Lemma transform_gives_question_and_target_witness :
  RawDataPreprocessor.transform (RawDataPreprocessor.mk Examples.shuffled None)
  = Ok (RawDataPreprocessor.mk Examples.shuffled
          (Some (mkDataFrame ["target"; "question"]
                   [(0%Z, [Str "o0"; Str "q0"]); (1%Z, [NA; Str "q1"])]))).
Proof.
  assert (Hwf : wf_frame Examples.shuffled)
    by (apply (bool_decide_unpack _); vm_compute; reflexivity).
  assert (Hcols : raw_columns Examples.shuffled)
    by (apply (bool_decide_unpack _); vm_compute; reflexivity).
  destruct (transform_gives_question_and_target
              (RawDataPreprocessor.mk Examples.shuffled None) Hwf Hcols)
    as (clean & Htransform & _).
  pose proof Htransform as Hclean. vm_compute in Hclean.
  injection Hclean as <-. exact Htransform.
Defined.

(** C8. Whenever [transform] succeeds, applying it again succeeds and
    leaves the object as the first application left it; for a raw table
    the clean table stored after one application and after two has
    exactly the columns "question" and "target". *)
Theorem transform_idempotent (self once : RawDataPreprocessor.t) :
  RawDataPreprocessor.transform self = Ok once →
  RawDataPreprocessor.transform once = Ok once ∧
  (raw_columns (RawDataPreprocessor._raw_data self) →
   ∃ clean, RawDataPreprocessor._data once = Some clean ∧ clean_columns clean).
Proof.
  intros Honce. unfold RawDataPreprocessor.transform in *.
  destruct (pd.drop _ _) as [data|e] eqn:Hdrop; [| discriminate].
  simpl in Honce. injection Honce as <-. simpl. rewrite Hdrop. simpl.
  split; [reflexivity |].
  intros Hperm. exists data. split; [reflexivity |].
  unfold pd.drop in Hdrop. case_decide; [| discriminate].
  injection Hdrop as <-. simpl. by apply raw_columns_transformed.
Qed.

Lemma transform_idempotent_witness :
  ∃ once clean,
    RawDataPreprocessor.transform (RawDataPreprocessor.mk Examples.shuffled None)
      = Ok once ∧
    RawDataPreprocessor.transform once = Ok once ∧
    RawDataPreprocessor._data once = Some clean ∧
    clean_columns clean.
Proof.
  destruct (RawDataPreprocessor.transform
              (RawDataPreprocessor.mk Examples.shuffled None))
    as [once|e] eqn:H; [| vm_compute in H; discriminate H].
  destruct (transform_idempotent _ once H) as [Htwice Hcols].
  destruct Hcols as (clean & Hdata & Hclean).
  { apply (bool_decide_unpack _). vm_compute. reflexivity. }
  exists once, clean. repeat split; assumption.
Defined.

(** ** Counting duplicated rows *)

Section distinct.
Context {A : Type} `{EqDecision A}.

Lemma filter_everything (P : A → Prop) `{∀ x, Decision (P x)} (l : list A) :
  Forall P l → filter P l = l.
Proof.
  induction 1 as [|x l Hx Hl IH]; [reflexivity |].
  rewrite filter_cons_True by assumption. by rewrite IH.
Qed.

Lemma filter_ne_not_elem (x : A) (l : list A) :
  x ∉ l → filter (λ y, y ≠ x) l = l.
Proof.
  intros Hx. apply filter_everything, Forall_forall.
  intros y Hy ->. contradiction.
Qed.

(** Taking one value out of a list takes one out of its distinct values. *)
Lemma remove_dups_filter_ne (x : A) (l : list A) :
  x ∈ l →
  length (remove_dups l) = S (length (remove_dups (filter (λ y, y ≠ x) l))).
Proof.
  induction l as [|y l IH]; intros Hx; [by apply elem_of_nil in Hx |].
  destruct (decide (y = x)) as [->|Hne].
  - rewrite filter_cons_False by tauto. simpl.
    destruct (decide_rel elem_of x l) as [Hin|Hnin].
    + by apply IH.
    + by rewrite filter_ne_not_elem.
  - apply elem_of_cons in Hx as [Heq|Hx]; [congruence |].
    rewrite filter_cons_True by assumption. simpl.
    destruct (decide_rel elem_of y l) as [Hin|Hnin].
    + destruct (decide_rel elem_of y (filter _ l)) as [_|Hout]; [by apply IH |].
      exfalso. apply Hout. by apply list_elem_of_filter.
    + destruct (decide_rel elem_of y (filter _ l)) as [Hin|_].
      * apply list_elem_of_filter in Hin. tauto.
      * simpl. by rewrite IH.
Qed.

Lemma remove_dups_cons_length (x : A) (l : list A) :
  length (remove_dups (x :: l)) = S (length (remove_dups (filter (λ y, y ≠ x) l))).
Proof.
  simpl. destruct (decide_rel elem_of x l) as [Hin|Hnin].
  - by apply remove_dups_filter_ne.
  - by rewrite filter_ne_not_elem.
Qed.

End distinct.

Section duplicated.
Context {A : Type} `{EqDecision A}.

(** Every row is either marked or the first of its kind among the rows
    not seen before. *)
Lemma duplicated_from_count (seen : list (list A)) (rs : list (Z * list A)) :
  pd.sum_bool (pd.duplicated_from seen rs)
  + length (remove_dups (filter (λ r, r ∉ seen) rs.*2))
  = length rs.
Proof.
  revert seen. induction rs as [|r rs IH]; intros seen; [reflexivity |].
  specialize (IH (r.2 :: seen)). unfold pd.sum_bool, Series in *. csimpl.
  assert (Hseen : filter (λ r', r' ∉ r.2 :: seen) rs.*2
                  = filter (λ y, y ≠ r.2) (filter (λ r', r' ∉ seen) rs.*2)).
  { rewrite list_filter_filter. apply list_filter_iff.
    intros y. rewrite not_elem_of_cons. tauto. }
  destruct (decide (r.2 ∈ seen)) as [Hin|Hnin].
  - rewrite (filter_cons_True (λ p : Z * bool, p.2 = true))
      by (simpl; by apply bool_decide_eq_true).
    rewrite filter_cons_False by tauto. csimpl.
    rewrite Hseen in IH. rewrite list_filter_filter_r in IH; [lia |].
    intros y Hy ->. contradiction.
  - rewrite (filter_cons_False (λ p : Z * bool, p.2 = true))
      by (simpl; rewrite bool_decide_eq_true; tauto).
    rewrite filter_cons_True by assumption.
    rewrite remove_dups_cons_length. rewrite Hseen in IH. lia.
Qed.

Lemma duplicated_count (df : DataFrame A) :
  pd.sum_bool (pd.duplicated df)
  = length (rows df) - length (remove_dups (rows df).*2).
Proof.
  pose proof (duplicated_from_count [] (rows df)) as H.
  rewrite filter_everything in H
    by (apply Forall_forall; intros y _; apply not_elem_of_nil).
  unfold pd.duplicated. lia.
Qed.

End duplicated.

(** ** Counting empty cells *)

Lemma sum_list_fmap_add {A} (f g : A → nat) (l : list A) :
  sum_list ((λ x, f x + g x) <$> l) = sum_list (f <$> l) + sum_list (g <$> l).
Proof. induction l as [|x l IH]; csimpl; [reflexivity | lia]. Qed.

Lemma sum_list_fmap_zero {A} (l : list A) :
  sum_list ((λ _, 0) <$> l) = 0.
Proof. induction l as [|x l IH]; csimpl; [reflexivity | exact IH]. Qed.

(** Summing over the positions of a row counts its [True] cells. *)
Lemma row_count (r : list bool) :
  sum_list ((λ j, if decide (r !! j = Some true) then 1 else 0)
              <$> seq 0 (length r))
  = length (filter (λ b, b = true) r).
Proof.
  induction r as [|b r IH]; [reflexivity |].
  cbn [length seq]. rewrite fmap_cons, <- fmap_S_seq, <- list_fmap_compose.
  rewrite filter_cons. cbn [sum_list_with id].
  change (sum_list_with id ((λ j, if decide (r !! j = Some true) then 1 else 0)
            <$> seq 0 (length r)))
    with (sum_list ((λ j, if decide (r !! j = Some true) then 1 else 0)
            <$> seq 0 (length r))) in IH.
  change ((λ j, if decide ((b :: r) !! j = Some true) then 1 else 0) ∘ S)
    with (λ j, if decide (r !! j = Some true) then 1 else 0).
  rewrite IH. by destruct b.
Qed.

(** Summing the column counts counts the cells: the double sum taken by
    columns equals the one taken by rows. *)
Lemma column_counts (n : nat) (R : list (Z * list bool)) :
  Forall (λ r, length r.2 = n) R →
  sum_list ((λ j, length (filter (λ r : Z * list bool, r.2 !! j = Some true) R))
              <$> seq 0 n)
  = length (filter (λ b, b = true) (concat R.*2)).
Proof.
  induction 1 as [|r R Hr HR IH].
  - apply sum_list_fmap_zero.
  - rewrite fmap_cons. cbn [concat]. rewrite filter_app, length_app.
    rewrite <- IH, <- row_count, Hr, <- sum_list_fmap_add.
    f_equal. apply list_fmap_ext. intros _ j _.
    rewrite filter_cons. by destruct (decide (r.2 !! j = Some true)).
Qed.

Lemma sum_columns_count (X : DataFrame bool) :
  Forall (λ r, length r.2 = length (columns X)) (rows X) →
  pd.sum (pd.sum_columns X)
  = length (filter (λ b, b = true) (concat (rows X).*2)).
Proof.
  intros Hrows. rewrite <- (column_counts _ _ Hrows).
  unfold pd.sum, pd.sum_columns. f_equal.
  rewrite fmap_imap.
  exact (imap_seq_0 (columns X)
           (λ j, length (filter (λ r : Z * list bool, r.2 !! j = Some true)
                           (rows X)))).
Qed.

Lemma concat_fmap {A B} (g : A → B) (ll : list (list A)) :
  concat ((λ l : list A, g <$> l) <$> ll) = g <$> concat ll.
Proof.
  induction ll as [|l ll IH]; [reflexivity |].
  rewrite fmap_cons. cbn [concat]. by rewrite fmap_app, IH.
Qed.

Lemma filter_fmap_true {A} (g : A → bool) (P : A → Prop)
    `{∀ x, Decision (P x)} (l : list A) :
  (∀ x, g x = true ↔ P x) →
  length (filter (λ b, b = true) (g <$> l)) = length (filter P l).
Proof.
  intros Hg. induction l as [|x l IH]; [reflexivity |].
  rewrite fmap_cons, !filter_cons.
  destruct (decide (g x = true)) as [Hx|Hx], (decide (P x)) as [Hp|Hp];
    simpl; rewrite ?IH; try reflexivity; exfalso; apply Hg in Hx || apply Hg in Hp;
    contradiction.
Qed.

(** A cell is missing after the replacement exactly when it was empty. *)
Lemma isna_after_replace (c : cell) :
  bool_decide ((if decide (c = Str "") then NA else c) = NA) = true
  ↔ empty_cell c.
Proof.
  rewrite bool_decide_eq_true. unfold empty_cell.
  destruct (decide (c = Str "")) as [->|Hne]; [tauto |].
  split; [auto | intros [?|?]; [contradiction | assumption]].
Qed.

Lemma map_cells_rows {A B} (g : A → B) (df : DataFrame A) :
  (rows (pd.map_cells g df)).*2 = (λ l : list A, g <$> l) <$> (rows df).*2.
Proof.
  unfold pd.map_cells. simpl. rewrite <- !list_fmap_compose. reflexivity.
Qed.

(** The count taken by [analyze] is the number of empty cells. *)
Lemma isna_replace_count (df : DataFrame cell) :
  Forall (λ r, length r.2 = length (columns df)) (rows df) →
  pd.sum (pd.sum_columns (pd.isna (pd.replace (Str "") NA df)))
  = empty_cells df.
Proof.
  intros Hrows. rewrite sum_columns_count.
  - unfold pd.isna, pd.replace, empty_cells.
    rewrite !map_cells_rows, !concat_fmap, <- list_fmap_compose.
    apply filter_fmap_true. intros c. apply isna_after_replace.
  - unfold pd.isna, pd.replace, pd.map_cells. simpl.
    rewrite !Forall_fmap. eapply Forall_impl; [exact Hrows |].
    intros r Hr. simpl. by rewrite !length_fmap.
Qed.

(** ** The rows without an empty cell *)

Local Abbreviation blank_to_na :=
  (λ c : cell, if decide (c = Str "") then NA else c).

Lemma replace_complete (l : list cell) :
  complete_row l → blank_to_na <$> l = l.
Proof.
  induction 1 as [|c l Hc Hl IH]; [reflexivity |].
  rewrite fmap_cons, IH. f_equal.
  destruct (decide (c = Str "")) as [->|_]; [| reflexivity].
  exfalso. apply Hc. by left.
Qed.

Lemma notna_after_replace (l : list cell) :
  Forall (λ c, c ≠ NA) (blank_to_na <$> l) ↔ complete_row l.
Proof.
  rewrite Forall_fmap. apply Forall_iff. intros c. simpl.
  rewrite <- isna_after_replace, bool_decide_eq_true. reflexivity.
Qed.

(** [dropna] after the replacement keeps exactly the rows without an empty
    cell, and keeps them as they are. *)
Lemma dropna_replace_rows (df : DataFrame cell) :
  rows (pd.dropna (pd.replace (Str "") NA df))
  = filter (λ r, complete_row r.2) (rows df).
Proof.
  unfold pd.dropna, pd.replace, pd.map_cells. simpl.
  induction (rows df) as [|r R IH]; [reflexivity |].
  rewrite fmap_cons, !filter_cons, IH. simpl.
  destruct (decide (complete_row r.2)) as [Hc|Hc].
  - rewrite decide_True by (by apply notna_after_replace).
    rewrite replace_complete by assumption. by destruct r.
  - rewrite decide_False; [reflexivity |]. by rewrite notna_after_replace.
Qed.

Lemma dropna_replace_columns (df : DataFrame cell) :
  columns (pd.dropna (pd.replace (Str "") NA df)) = columns df.
Proof. reflexivity. Qed.

(** ** Columns after [reset_index] *)

Lemma get_loc_cons_ne (c label : string) (cols : list string) :
  c ≠ label → pd.get_loc (c :: cols) label = S <$> pd.get_loc cols label.
Proof.
  intros Hne. unfold pd.get_loc. simpl. rewrite decide_False by assumption.
  by destruct (list_find _ cols) as [[j y]|].
Qed.

Lemma get_loc_is_Some (cols : list string) (label : string) :
  label ∈ cols → is_Some (pd.get_loc cols label).
Proof.
  induction cols as [|c cols IH]; intros Hin; [by apply elem_of_nil in Hin |].
  destruct (decide (c = label)) as [->|Hne].
  - unfold pd.get_loc. simpl. rewrite decide_True by reflexivity. by eexists.
  - rewrite get_loc_cons_ne by assumption.
    apply elem_of_cons in Hin as [->|Hin]; [contradiction |].
    destruct (IH Hin) as [j ->]. by eexists.
Qed.

Lemma get_loc_lt (cols : list string) (label : string) (j : nat) :
  pd.get_loc cols label = Some j → j < length cols.
Proof.
  revert j. induction cols as [|c cols IH]; intros j; [discriminate |].
  destruct (decide (c = label)) as [->|Hne].
  - unfold pd.get_loc. simpl. rewrite decide_True by reflexivity.
    intros [= <-]. simpl. lia.
  - rewrite get_loc_cons_ne by assumption.
    destruct (pd.get_loc cols label) as [k|]; [| discriminate].
    intros [= <-]. specialize (IH k eq_refl). simpl. lia.
Qed.

Lemma reset_index_outcome (df : DataFrame cell) :
  pd.reset_index df = Raise ValueError ∨
  ∃ name, (name = "index" ∨ name = "level_0") ∧
    pd.reset_index df
    = Ok (mkDataFrame (name :: columns df)
            (imap (λ i r, (Z.of_nat i, Int r.1 :: r.2)) (rows df))).
Proof.
  unfold pd.reset_index.
  destruct (decide ("index" ∈ columns df)).
  - destruct (decide ("level_0" ∈ columns df)); [by left |].
    right. exists "level_0". auto.
  - rewrite decide_False by assumption. right. exists "index". auto.
Qed.

Lemma reset_index_Ok (df : DataFrame cell) :
  ¬ ("index" ∈ columns df ∧ "level_0" ∈ columns df) →
  ∃ name, (name = "index" ∨ name = "level_0") ∧
    pd.reset_index df
    = Ok (mkDataFrame (name :: columns df)
            (imap (λ i r, (Z.of_nat i, Int r.1 :: r.2)) (rows df))).
Proof.
  intros Hfree. destruct (reset_index_outcome df) as [Hraise|Hok]; [| exact Hok].
  exfalso. unfold pd.reset_index in Hraise.
  destruct (decide ("index" ∈ columns df)).
  - destruct (decide ("level_0" ∈ columns df)); [tauto | discriminate].
  - rewrite decide_False in Hraise by assumption. discriminate.
Qed.

(** The values of a column of the frame that [reset_index] builds. *)
Lemma reset_values {A} (g : nat → Z) (h : Z → A) (j : nat)
    (R : list (Z * list A)) :
  (omap (λ r : Z * list A, pair r.1 <$> r.2 !! S j)
     (imap (λ i r, (g i, h r.1 :: r.2)) R)).*2
  = omap (λ r, r.2 !! j) R.
Proof.
  revert g. induction R as [|r R IH]; intros g; [reflexivity |].
  rewrite imap_cons. cbn [omap list_omap]. simpl.
  specialize (IH (g ∘ S)).
  destruct (r.2 !! j) as [x|]; csimpl; by rewrite <- IH.
Qed.

Lemma getitem_reset (name label : string) (cols : list string)
    (R : list (Z * list cell)) :
  name ≠ label →
  match pd.get_loc cols label with
  | Some j =>
      ∃ s, pd.getitem (mkDataFrame (name :: cols)
                         (imap (λ i r, (Z.of_nat i, Int r.1 :: r.2)) R)) label
           = Ok s ∧
           pd.values s = omap (λ r, r.2 !! j) R
  | None =>
      pd.getitem (mkDataFrame (name :: cols)
                    (imap (λ i r, (Z.of_nat i, Int r.1 :: r.2)) R)) label
      = Raise KeyError
  end.
Proof.
  intros Hne. unfold pd.getitem. simpl.
  rewrite get_loc_cons_ne by assumption.
  destruct (pd.get_loc cols label) as [j|]; simpl; [| reflexivity].
  eexists. split; [reflexivity |]. apply reset_values.
Qed.

(** ** [min] and [max] with a key *)

Section select.
Context {A : Type}.
Variable better : nat → nat → bool.
Variable key : A → result nat.
Variable f : A → nat.
Hypothesis better_trans :
  ∀ a b c, better a b = false → better b c = false → better a c = false.
Hypothesis better_asym : ∀ a b, better a b = true → better b a = false.

Lemma better_irrefl (a : nat) : better a a = false.
Proof.
  pose proof (better_asym a a) as H.
  destruct (better a a); [by apply H | reflexivity].
Qed.

(** The loop ends with an item that no item it has met is better than. *)
Lemma select_loop_best (best : A) (l : list A) :
  Forall (λ y, key y = Ok (f y)) l →
  ∃ b, Py.select_loop better key best (f best) l = Ok b ∧
       b ∈ best :: l ∧
       ∀ y, y ∈ best :: l → better (f y) (f b) = false.
Proof.
  intros Hkeys. revert best.
  induction Hkeys as [|y l Hy Hl IH]; intros best.
  - exists best. split; [reflexivity |]. split; [by left |].
    intros y Hy. apply list_elem_of_singleton in Hy as ->. apply better_irrefl.
  - simpl. step Hy. destruct (better (f y) (f best)) eqn:E.
    + destruct (IH y) as (b & Hrun & Hin & Hbest).
      exists b. split; [exact Hrun |]. split; [by right |].
      intros z Hz. apply elem_of_cons in Hz as [->|Hz]; [| by apply Hbest].
      apply (better_trans _ (f y)); [by apply better_asym |].
      apply Hbest. by left.
    + destruct (IH best) as (b & Hrun & Hin & Hbest).
      exists b. split; [exact Hrun |]. split.
      { apply elem_of_cons in Hin as [->|Hin]; [by left | by do 2 right]. }
      intros z Hz. apply elem_of_cons in Hz as [->|Hz]; [apply Hbest; by left |].
      apply elem_of_cons in Hz as [->|Hz]; [| apply Hbest; by right].
      apply (better_trans _ (f best)); [exact E |]. apply Hbest. by left.
Qed.

Lemma select_best (l : list A) :
  l ≠ [] →
  Forall (λ y, key y = Ok (f y)) l →
  ∃ b, Py.select better key l = Ok b ∧ b ∈ l ∧
       ∀ y, y ∈ l → better (f y) (f b) = false.
Proof.
  destruct l as [|x l]; [congruence |]. intros _ Hkeys.
  apply Forall_cons in Hkeys as [Hx Hl].
  unfold Py.select. step Hx. by apply select_loop_best.
Qed.

(** On an empty sequence both raise. *)
Lemma select_empty : Py.select better key [] = Raise ValueError.
Proof. reflexivity. Qed.

End select.

Lemma min_shortest (l : list cell) :
  l ≠ [] →
  Forall (λ c, len c = Ok (cell_length c)) l →
  ∃ b, Py.min l len = Ok b ∧ b ∈ l ∧ ∀ c, c ∈ l → (cell_length b ≤ cell_length c)%nat.
Proof.
  intros Hne Hkeys.
  destruct (select_best Nat.ltb len cell_length) with (l := l)
    as (b & Hrun & Hin & Hbest); [| | assumption | assumption |].
  - intros a b c. rewrite !Nat.ltb_ge. lia.
  - intros a b. rewrite Nat.ltb_lt, Nat.ltb_ge. lia.
  - exists b. split; [exact Hrun |]. split; [exact Hin |].
    intros c Hc. specialize (Hbest c Hc). apply Nat.ltb_ge in Hbest. exact Hbest.
Qed.

Lemma max_longest (l : list cell) :
  l ≠ [] →
  Forall (λ c, len c = Ok (cell_length c)) l →
  ∃ b, Py.max l len = Ok b ∧ b ∈ l ∧ ∀ c, c ∈ l → (cell_length c ≤ cell_length b)%nat.
Proof.
  intros Hne Hkeys.
  destruct (select_best (λ k kbest, Nat.ltb kbest k) len cell_length) with (l := l)
    as (b & Hrun & Hin & Hbest); [| | assumption | assumption |].
  - intros a b c. rewrite !Nat.ltb_ge. lia.
  - intros a b. rewrite Nat.ltb_lt, Nat.ltb_ge. lia.
  - exists b. split; [exact Hrun |]. split; [exact Hin |].
    intros c Hc. specialize (Hbest c Hc). apply Nat.ltb_ge in Hbest. exact Hbest.
Qed.

(** ** The instruction cells of the rows without an empty cell *)

Lemma row_cell_get_loc {A} (cols : list string) (r : list A)
    (label : string) (j : nat) :
  pd.get_loc cols label = Some j → row_cell cols r label = r !! j.
Proof. intros Hj. unfold row_cell. by rewrite Hj. Qed.

Section samples.
Variable raw : DataFrame cell.
Variable j : nat.
Hypothesis instruction_at : pd.get_loc (columns raw) "instruction" = Some j.

Local Abbreviation samples :=
  (omap (λ r : Z * list cell, r.2 !! j)
     (filter (λ r : Z * list cell, complete_row r.2) (rows raw))).

Lemma sample_is_text (c : cell) :
  text_frame raw → c ∈ samples →
  ∃ s, c = Str s ∧ sample_length raw (String.length s).
Proof.
  intros Htext Hc. apply list_elem_of_omap in Hc as (r & Hr & Hcell).
  apply list_elem_of_filter in Hr as [Hcomplete Hr].
  assert (Hin : c ∈ r.2) by (by eapply list_elem_of_lookup_2).
  unfold text_frame in Htext. rewrite Forall_forall in Htext.
  specialize (Htext r Hr). rewrite Forall_forall in Htext.
  specialize (Htext c Hin).
  assert (Hfull : ¬ empty_cell c).
  { unfold complete_row in Hcomplete. rewrite Forall_forall in Hcomplete.
    by apply Hcomplete. }
  destruct c as [s|z|].
  - exists s. split; [reflexivity |]. exists r, s.
    by rewrite (row_cell_get_loc _ _ _ _ instruction_at).
  - by destruct (Htext z).
  - destruct Hfull. by right.
Qed.

Lemma sample_length_in (n : nat) :
  sample_length raw n → ∃ c, c ∈ samples ∧ cell_length c = n.
Proof.
  intros (r & s & Hr & Hcomplete & Hcell & Hlen).
  rewrite (row_cell_get_loc _ _ _ _ instruction_at) in Hcell.
  exists (Str s). split; [| exact Hlen].
  apply list_elem_of_omap. exists r. split; [| exact Hcell].
  by apply list_elem_of_filter.
Qed.

Lemma samples_nonempty :
  Forall (λ r, length r.2 = length (columns raw)) (rows raw) →
  (∃ r, r ∈ rows raw ∧ complete_row r.2) →
  samples ≠ [].
Proof.
  intros Hrows (r & Hr & Hcomplete).
  rewrite Forall_forall in Hrows. specialize (Hrows r Hr).
  destruct (lookup_lt_is_Some_2 r.2 j) as [c Hc].
  { rewrite Hrows. by eapply get_loc_lt. }
  assert (Hin : c ∈ samples).
  { apply list_elem_of_omap. exists r. split; [| exact Hc].
    by apply list_elem_of_filter. }
  intros Hnil. rewrite Hnil in Hin. by apply elem_of_nil in Hin.
Qed.

End samples.

(** ** The preprocessor: [analyze] *)

Local Abbreviation report_of samples cols duplicates empty mn mx :=
  (<["dataset_number_of_samples" := samples]>
   (<["dataset_columns" := cols]>
   (<["dataset_duplicates" := duplicates]>
   (<["dataset_empty_rows" := empty]>
   (<["dataset_sample_min_len" := mn]>
   (<["dataset_sample_max_len" := mx]> (∅ : gmap string nat))))))).

(** The general form of the report: on a table of text with a column
    "instruction", whose labels leave room for the column that
    [reset_index] adds, and with a row without an empty cell. *)
Lemma analyze_returns (self : RawDataPreprocessor.t) :
  wf_frame (RawDataPreprocessor._raw_data self) →
  text_frame (RawDataPreprocessor._raw_data self) →
  "instruction" ∈ columns (RawDataPreprocessor._raw_data self) →
  ¬ ("index" ∈ columns (RawDataPreprocessor._raw_data self) ∧
     "level_0" ∈ columns (RawDataPreprocessor._raw_data self)) →
  (∃ r, r ∈ rows (RawDataPreprocessor._raw_data self) ∧ complete_row r.2) →
  ∃ mn mx,
    RawDataPreprocessor.analyze self
    = Ok (report_of
            (length (rows (RawDataPreprocessor._raw_data self)))
            (length (columns (RawDataPreprocessor._raw_data self)))
            (duplicated_rows (RawDataPreprocessor._raw_data self))
            (empty_cells (RawDataPreprocessor._raw_data self))
            mn mx) ∧
    sample_length (RawDataPreprocessor._raw_data self) mn ∧
    (∀ n, sample_length (RawDataPreprocessor._raw_data self) n → (mn ≤ n)%nat) ∧
    sample_length (RawDataPreprocessor._raw_data self) mx ∧
    (∀ n, sample_length (RawDataPreprocessor._raw_data self) n → (n ≤ mx)%nat).
Proof.
  destruct self as [raw data]. simpl.
  intros [_ Hrows] Htext Hinstr Hfree Hrow.
  destruct (get_loc_is_Some _ _ Hinstr) as [j Hj].
  destruct (reset_index_Ok (pd.dropna (pd.replace (Str "") NA raw)) Hfree)
    as (name & Hname & Hreset).
  rewrite dropna_replace_rows, dropna_replace_columns in Hreset.
  assert (Hne : name ≠ "instruction") by (destruct Hname; subst; discriminate).
  pose proof (getitem_reset name "instruction" (columns raw)
                (filter (λ r, complete_row r.2) (rows raw)) Hne) as Hget.
  rewrite Hj in Hget. destruct Hget as (s & Hget & Hvalues).
  assert (Hkeys : Forall (λ c, len c = Ok (cell_length c)) (pd.values s)).
  { rewrite Hvalues. apply Forall_forall. intros c Hc.
    by destruct (sample_is_text raw j Hj c Htext Hc) as (t & -> & _). }
  assert (Hsome : pd.values s ≠ []).
  { rewrite Hvalues. by apply samples_nonempty. }
  destruct (min_shortest _ Hsome Hkeys) as (shortest & Hmin & Hmin_in & Hmin_le).
  destruct (max_longest _ Hsome Hkeys) as (longest & Hmax & Hmax_in & Hmax_ge).
  rewrite Forall_forall in Hkeys.
  exists (cell_length shortest), (cell_length longest). split.
  - unfold RawDataPreprocessor.analyze. simpl.
    step Hreset. step Hget. step Hmin. step (Hkeys _ Hmin_in).
    step Hmax. step (Hkeys _ Hmax_in).
    rewrite duplicated_count, isna_replace_count by assumption.
    reflexivity.
  - rewrite Hvalues in Hmin_in, Hmax_in, Hmin_le, Hmax_ge.
    destruct (sample_is_text raw j Hj _ Htext Hmin_in) as (smin & -> & Hsmin).
    destruct (sample_is_text raw j Hj _ Htext Hmax_in) as (smax & -> & Hsmax).
    repeat split; try assumption.
    + intros n Hn.
      destruct (sample_length_in raw j Hj n Hn) as (c & Hc & <-).
      by apply Hmin_le.
    + intros n Hn.
      destruct (sample_length_in raw j Hj n Hn) as (c & Hc & <-).
      by apply Hmax_ge.
Qed.

(** Without a row free of empty cells [analyze] raises; the exception is
    the [ValueError] of [min] on an empty sequence when the column
    "instruction" exists and [reset_index] can add its column. *)
Lemma analyze_no_complete_row (self : RawDataPreprocessor.t) :
  filter (λ r, complete_row r.2) (rows (RawDataPreprocessor._raw_data self)) = [] →
  raises (RawDataPreprocessor.analyze self) ∧
  ("instruction" ∈ columns (RawDataPreprocessor._raw_data self) →
   ¬ ("index" ∈ columns (RawDataPreprocessor._raw_data self) ∧
      "level_0" ∈ columns (RawDataPreprocessor._raw_data self)) →
   RawDataPreprocessor.analyze self = Raise ValueError).
Proof.
  destruct self as [raw data]. simpl. intros Hnone.
  assert (Hafter : ∀ name, name = "index" ∨ name = "level_0" →
    pd.reset_index (pd.dropna (pd.replace (Str "") NA raw))
    = Ok (mkDataFrame (name :: columns raw)
            (imap (λ i r, (Z.of_nat i, Int r.1 :: r.2)) [])) →
    raises (RawDataPreprocessor.analyze (RawDataPreprocessor.mk raw data)) ∧
    ("instruction" ∈ columns raw →
     RawDataPreprocessor.analyze (RawDataPreprocessor.mk raw data)
     = Raise ValueError)).
  { intros name Hname Hreset.
    assert (Hne : name ≠ "instruction") by (destruct Hname; subst; discriminate).
    pose proof (getitem_reset name "instruction" (columns raw) [] Hne) as Hget.
    cbn [imap] in Hget, Hreset.
    unfold RawDataPreprocessor.analyze. simpl. step Hreset.
    destruct (pd.get_loc (columns raw) "instruction") as [j|] eqn:Hj.
    - destruct Hget as (s & Hget & Hvalues). step Hget. rewrite Hvalues. simpl.
      split; [by eexists | reflexivity].
    - step Hget. split; [by eexists |].
      intros Hin. destruct (get_loc_is_Some _ _ Hin) as [j' Hj'].
      rewrite Hj' in Hj. discriminate. }
  split.
  - destruct (reset_index_outcome (pd.dropna (pd.replace (Str "") NA raw)))
      as [Hraise|(name & Hname & Hreset)].
    + unfold RawDataPreprocessor.analyze. simpl. step Hraise. by eexists.
    + rewrite dropna_replace_rows, dropna_replace_columns, Hnone in Hreset.
      by apply (Hafter name Hname Hreset).
  - intros Hinstr Hfree.
    destruct (reset_index_Ok (pd.dropna (pd.replace (Str "") NA raw)) Hfree)
      as (name & Hname & Hreset).
    rewrite dropna_replace_rows, dropna_replace_columns, Hnone in Hreset.
    by apply (Hafter name Hname Hreset).
Qed.

(** C1 (as amended). For every raw table in which at least one row
    contains no empty cell, [analyze] returns a report in which the sample
    count is the number of rows, the column count is the number of columns,
    the duplicate count is the number of duplicated rows, the empty count
    is the number of cells that are empty strings or missing, and the
    minimal and maximal sample lengths are the shortest and the longest
    length of an instruction string among the rows without an empty cell. *)
Theorem analyze_report (self : RawDataPreprocessor.t) :
  wf_frame (RawDataPreprocessor._raw_data self) →
  text_frame (RawDataPreprocessor._raw_data self) →
  raw_columns (RawDataPreprocessor._raw_data self) →
  (∃ r, r ∈ rows (RawDataPreprocessor._raw_data self) ∧ complete_row r.2) →
  ∃ mn mx,
    RawDataPreprocessor.analyze self
    = Ok (report_of
            (length (rows (RawDataPreprocessor._raw_data self)))
            (length (columns (RawDataPreprocessor._raw_data self)))
            (duplicated_rows (RawDataPreprocessor._raw_data self))
            (empty_cells (RawDataPreprocessor._raw_data self))
            mn mx) ∧
    sample_length (RawDataPreprocessor._raw_data self) mn ∧
    (∀ n, sample_length (RawDataPreprocessor._raw_data self) n → (mn ≤ n)%nat) ∧
    sample_length (RawDataPreprocessor._raw_data self) mx ∧
    (∀ n, sample_length (RawDataPreprocessor._raw_data self) n → (n ≤ mx)%nat).
Proof.
  intros Hwf Htext Hcols Hrow. unfold raw_columns in Hcols.
  apply analyze_returns; try assumption.
  - apply (raw_columns_elem _ _ Hcols). auto.
  - intros [Hindex _]. apply (raw_columns_elem _ _ Hcols) in Hindex.
    destruct Hindex as [? | [? | [? | ?]]]; discriminate.
Qed.

(** The scenario of C1: three rows, one a duplicate, one with an empty
    instruction. *)
Lemma analyze_report_witness :
  ∃ report,
    RawDataPreprocessor.analyze (RawDataPreprocessor.mk Examples.three_rows None)
      = Ok report ∧
    report !! "dataset_number_of_samples" = Some 3 ∧
    report !! "dataset_columns" = Some 4 ∧
    report !! "dataset_duplicates" = Some 1 ∧
    report !! "dataset_empty_rows" = Some 1.
Proof.
  assert (Hwf : wf_frame Examples.three_rows)
    by (apply (bool_decide_unpack _); vm_compute; reflexivity).
  assert (Htext : text_frame Examples.three_rows)
    by (repeat constructor; discriminate).
  assert (Hcols : raw_columns Examples.three_rows)
    by (unfold raw_columns; reflexivity).
  assert (Hrow : ∃ r, r ∈ rows Examples.three_rows ∧ complete_row r.2).
  { exists (0%Z, [Str "Add"; Str "1 2"; Str "3"; Str "Add 1 2 3"]).
    split; [by left |]. apply (bool_decide_unpack _). vm_compute. reflexivity. }
  destruct (analyze_report (RawDataPreprocessor.mk Examples.three_rows None)
              Hwf Htext Hcols Hrow) as (mn & mx & Hreport & _).
  eexists. split; [exact Hreport |].
  repeat split; vm_compute; reflexivity.
Defined.

(** C1, counterexample to the claim as stated: a raw table of one row,
    whose input context is empty, is not empty, and [analyze] raises
    instead of returning a report. *)
Lemma analyze_raises_on_nonempty_table :
  rows Examples.no_complete_row ≠ [] ∧
  RawDataPreprocessor.analyze
    (RawDataPreprocessor.mk Examples.no_complete_row None) = Raise ValueError.
Proof. split; [discriminate | vm_compute; reflexivity]. Qed.

(** C9. If every row of the raw table contains an empty cell, [analyze]
    fails with an error instead of returning a report: the minimum is
    then taken over an empty column, which is a value error whenever the
    steps before it pass. So [analyze] returns only if some row has no
    empty cell. *)
Theorem analyze_needs_complete_row (self : RawDataPreprocessor.t) :
  ((∀ r, r ∈ rows (RawDataPreprocessor._raw_data self) → Exists empty_cell r.2) →
   raises (RawDataPreprocessor.analyze self) ∧
   ("instruction" ∈ columns (RawDataPreprocessor._raw_data self) →
    ¬ ("index" ∈ columns (RawDataPreprocessor._raw_data self) ∧
       "level_0" ∈ columns (RawDataPreprocessor._raw_data self)) →
    RawDataPreprocessor.analyze self = Raise ValueError)) ∧
  (returns (RawDataPreprocessor.analyze self) →
   ∃ r, r ∈ rows (RawDataPreprocessor._raw_data self) ∧ complete_row r.2).
Proof.
  split.
  - intros Hall. apply analyze_no_complete_row.
    destruct (filter _ _) as [|r R] eqn:Hfilter; [reflexivity |].
    assert (Hr : r ∈ filter (λ r, complete_row r.2)
                       (rows (RawDataPreprocessor._raw_data self)))
      by (rewrite Hfilter; by left).
    apply list_elem_of_filter in Hr as [Hcomplete Hr].
    specialize (Hall r Hr). apply Exists_exists in Hall as (c & Hc & Hempty).
    unfold complete_row in Hcomplete. rewrite Forall_forall in Hcomplete.
    by destruct (Hcomplete c Hc).
  - intros Hreturns.
    destruct (filter (λ r, complete_row r.2)
                (rows (RawDataPreprocessor._raw_data self)))
      as [|r R] eqn:Hfilter.
    + destruct (analyze_no_complete_row self Hfilter) as [Hraises _].
      by destruct (raises_not_returns _ Hraises).
    + assert (Hr : r ∈ filter (λ r, complete_row r.2)
                         (rows (RawDataPreprocessor._raw_data self)))
        by (rewrite Hfilter; by left).
      apply list_elem_of_filter in Hr as [Hcomplete Hr]. by exists r.
Qed.

Lemma analyze_needs_complete_row_witness :
  RawDataPreprocessor.analyze
    (RawDataPreprocessor.mk Examples.no_complete_row None) = Raise ValueError ∧
  ∃ r, r ∈ rows Examples.three_rows ∧ complete_row r.2.
Proof.
  split.
  - apply (proj1 (analyze_needs_complete_row
                    (RawDataPreprocessor.mk Examples.no_complete_row None))).
    + intros r Hr. apply list_elem_of_singleton in Hr as ->.
      apply (bool_decide_unpack _). vm_compute. reflexivity.
    + apply (bool_decide_unpack _). vm_compute. reflexivity.
    + apply (bool_decide_unpack _). vm_compute. reflexivity.
  - apply (proj2 (analyze_needs_complete_row
                    (RawDataPreprocessor.mk Examples.three_rows None))).
    vm_compute. by eexists.
Defined.

(** * Further properties of the code *)

(** ** The importer: what [obtain] leaves behind *)

(** X1. [obtain] replaces whatever was stored. If the hub yields an
    object that is not a table, [obtain] raises the type error and the
    accessor raises it afterwards too, also when a table was stored
    before; if the hub itself fails, that failure reaches the caller and
    the object is untouched; if the hub yields a table, the accessor
    returns that table. *)
Theorem obtain_replaces_stored
    (hub : string → result RawDataImporter.pyobj) (self : RawDataImporter.t) :
  (∀ e, hub (RawDataImporter._hf_name self) = Raise e →
     RawDataImporter.obtain hub self = (self, Raise e)) ∧
  (∀ v, hub (RawDataImporter._hf_name self) = Ok v →
     RawDataImporter.is_frame v = false →
     (RawDataImporter.obtain hub self).2 = Raise TypeError ∧
     RawDataImporter.raw_data (RawDataImporter.obtain hub self).1
       = Raise TypeError) ∧
  (∀ df, hub (RawDataImporter._hf_name self) = Ok (RawDataImporter.PyFrame df) →
     (RawDataImporter.obtain hub self).2 = Ok () ∧
     RawDataImporter.raw_data (RawDataImporter.obtain hub self).1 = Ok df).
Proof.
  split; [| split].
  - intros e Hhub. unfold RawDataImporter.obtain. by rewrite Hhub.
  - intros v Hhub Hv. by apply obtain_not_a_table with (v := v).
  - intros df Hhub. unfold RawDataImporter.obtain. by rewrite Hhub.
Qed.

Lemma obtain_replaces_stored_witness :
  RawDataImporter.raw_data MoreExamples.loaded = Ok Examples.three_rows ∧
  RawDataImporter.raw_data
    (RawDataImporter.obtain Examples.hub_other MoreExamples.loaded).1
    = Raise TypeError ∧
  RawDataImporter.obtain MoreExamples.hub_down MoreExamples.loaded
    = (MoreExamples.loaded, Raise (ServiceError "hub")).
Proof.
  destruct (obtain_replaces_stored Examples.hub_other MoreExamples.loaded)
    as (_ & Hother & _).
  destruct (obtain_replaces_stored MoreExamples.hub_down MoreExamples.loaded)
    as (Hdown & _).
  split; [reflexivity |]. split.
  - apply (Hother RawDataImporter.PyOther); reflexivity.
  - apply Hdown. reflexivity.
Defined.

(** ** The dataset adapter: every index *)

Lemma series_getitem_raises {A} (s : Series string A) (label : string) (e : exn) :
  pd.series_getitem s label = Raise e → e = KeyError.
Proof.
  unfold pd.series_getitem.
  destruct (list_find _ s) as [[j p]|]; [discriminate | by intros [= <-]].
Qed.

(** A position in [-n, n) selects the row at that position modulo [n]. *)
Lemma iloc_mod {A} (df : DataFrame A) (i : Z) :
  (- Z.of_nat (length (rows df)) ≤ i < Z.of_nat (length (rows df)))%Z →
  ∃ r, rows df !! Z.to_nat (i `mod` Z.of_nat (length (rows df))) = Some r ∧
       pd.iloc df i = Ok (zip (columns df) r.2).
Proof.
  intros Hi. destruct (decide (i < 0)%Z) as [Hneg|Hpos].
  - rewrite iloc_negative by lia.
    replace (i `mod` Z.of_nat (length (rows df)))%Z
      with (i + Z.of_nat (length (rows df)))%Z.
    + apply iloc_in_range. lia.
    + apply Z.mod_unique with (q := (-1)%Z); lia.
  - rewrite Z.mod_small by lia. apply iloc_in_range. lia.
Qed.

(** X2. On a table that has the columns "question" and "target", the
    retrieval returns exactly for the indices in [-row count, row count),
    and what it returns for such an index is the pair of cells of the row
    at the index modulo the row count. *)
Theorem getitem_returns_iff (self : TaskDataset.t) (index : Z) :
  wf_frame (TaskDataset._data self) →
  "question" ∈ columns (TaskDataset._data self) →
  "target" ∈ columns (TaskDataset._data self) →
  let n := Z.of_nat (TaskDataset.__len__ self) in
  (returns (TaskDataset.__getitem__ self index) ↔ (- n ≤ index < n)%Z) ∧
  ((- n ≤ index < n)%Z →
   ∃ q t,
     cell_at (TaskDataset._data self) (Z.to_nat (index `mod` n)) "question" = Some q ∧
     cell_at (TaskDataset._data self) (Z.to_nat (index `mod` n)) "target" = Some t ∧
     TaskDataset.__getitem__ self index = Ok (q, t)).
Proof.
  destruct self as [df]. simpl. intros [_ Hrows] Hq Ht.
  assert (Hin : (- Z.of_nat (length (rows df)) ≤ index
                 < Z.of_nat (length (rows df)))%Z →
    ∃ q t,
      cell_at df (Z.to_nat (index `mod` Z.of_nat (length (rows df)))) "question"
        = Some q ∧
      cell_at df (Z.to_nat (index `mod` Z.of_nat (length (rows df)))) "target"
        = Some t ∧
      TaskDataset.__getitem__ (TaskDataset.mk df) index = Ok (q, t)).
  { intros Hi. destruct (iloc_mod df index Hi) as (r & Hr & Hiloc).
    assert (Hlen : length r.2 = length (columns df)).
    { rewrite Forall_forall in Hrows. apply Hrows.
      by apply list_elem_of_lookup_2 in Hr. }
    destruct (row_cell_is_Some (columns df) r.2 "question" Hlen Hq) as [q Hcq].
    destruct (row_cell_is_Some (columns df) r.2 "target" Hlen Ht) as [t Hct].
    exists q, t. unfold cell_at. rewrite Hr. simpl.
    split; [exact Hcq |]. split; [exact Hct |].
    unfold TaskDataset.__getitem__. simpl. step Hiloc.
    step (series_getitem_zip _ _ _ _ Hcq).
    by step (series_getitem_zip _ _ _ _ Hct). }
  split; [| exact Hin]. split.
  - intros [v Hv].
    destruct (decide (- Z.of_nat (length (rows df)) ≤ index
                      < Z.of_nat (length (rows df)))%Z) as [Hi|Hi]; [exact Hi |].
    unfold TaskDataset.__getitem__ in Hv. simpl in Hv.
    rewrite (iloc_out_of_range df index Hi) in Hv. discriminate.
  - intros Hi. destruct (Hin Hi) as (q & t & _ & _ & Hget). by eexists.
Qed.

Lemma getitem_returns_iff_witness :
  TaskDataset.__getitem__ (TaskDataset.mk Examples.five_rows) (-2)
  = Ok (Str "q3", Str "t3").
Proof.
  assert (Hwf : wf_frame Examples.five_rows)
    by (apply (bool_decide_unpack _); vm_compute; reflexivity).
  assert (Hq : "question" ∈ columns Examples.five_rows)
    by (apply (bool_decide_unpack _); vm_compute; reflexivity).
  assert (Ht : "target" ∈ columns Examples.five_rows)
    by (apply (bool_decide_unpack _); vm_compute; reflexivity).
  assert (Hi : (- 5 ≤ -2 < 5)%Z) by lia.
  destruct (proj2 (getitem_returns_iff (TaskDataset.mk Examples.five_rows) (-2)
                     Hwf Hq Ht) Hi) as (q & t & Hcq & Hct & Hget).
  rewrite Hget. vm_compute in Hcq, Hct. congruence.
Defined.

(** X3. On a table that lacks the column "question" or the column
    "target", for instance a raw table that was not transformed, the
    retrieval fails with a key error for every index in
    [-row count, row count); outside that range the index error comes
    first. *)
Theorem getitem_missing_column (self : TaskDataset.t) (index : Z) :
  "question" ∉ columns (TaskDataset._data self) ∨
  "target" ∉ columns (TaskDataset._data self) →
  let n := Z.of_nat (TaskDataset.__len__ self) in
  ((- n ≤ index < n)%Z → TaskDataset.__getitem__ self index = Raise KeyError) ∧
  (¬ (- n ≤ index < n)%Z → TaskDataset.__getitem__ self index = Raise IndexError).
Proof.
  destruct self as [df]. simpl. intros Hmissing. split; intros Hi.
  - destruct (iloc_mod df index Hi) as (r & _ & Hiloc).
    unfold TaskDataset.__getitem__. simpl. step Hiloc.
    destruct (pd.series_getitem (zip (columns df) r.2) "question")
      as [q|e] eqn:Hq; simpl.
    + destruct Hmissing as [Hno|Hno].
      * rewrite series_getitem_missing in Hq by assumption. discriminate.
      * by rewrite series_getitem_missing by assumption.
    + by apply series_getitem_raises in Hq as ->.
  - unfold TaskDataset.__getitem__. simpl.
    by rewrite (iloc_out_of_range df index Hi).
Qed.

Lemma getitem_missing_column_witness :
  TaskDataset.__getitem__ (TaskDataset.mk Examples.three_rows) 0 = Raise KeyError ∧
  TaskDataset.__getitem__ (TaskDataset.mk Examples.three_rows) 3 = Raise IndexError.
Proof.
  assert (Hmissing : "question" ∉ columns Examples.three_rows ∨
                     "target" ∉ columns Examples.three_rows).
  { left. apply (bool_decide_unpack _). vm_compute. reflexivity. }
  split.
  - apply (proj1 (getitem_missing_column (TaskDataset.mk Examples.three_rows) 0
                    Hmissing)).
    change (- 3 ≤ 0 < 3)%Z. lia.
  - apply (proj2 (getitem_missing_column (TaskDataset.mk Examples.three_rows) 3
                    Hmissing)).
    change (¬ (- 3 ≤ 3 < 3)%Z). lia.
Defined.

(** ** The inference pipeline: what is cut off *)

Lemma slice_from_split (n : nat) (s : string) :
  ∃ p, s = p +:+ Py.slice_from n s ∧
       String.length p = Nat.min n (String.length s).
Proof.
  revert s. induction n as [|n IH]; intros s.
  - exists "". split; reflexivity.
  - destruct s as [|a s].
    + exists "". split; reflexivity.
    + destruct (IH s) as (p & Hp & Hlen).
      exists (String a p). split.
      * change (String a s = String a (p +:+ Py.slice_from n s)).
        f_equal. exact Hp.
      * simpl. by rewrite Hlen.
Qed.

Lemma slice_from_all (n : nat) (s : string) :
  (String.length s ≤ n)%nat → Py.slice_from n s = "".
Proof.
  revert s. induction n as [|n IH]; intros s Hlen.
  - destruct s; [reflexivity | simpl in Hlen; lia].
  - destruct s as [|a s]; [reflexivity |]. simpl in *. apply IH. lia.
Qed.

Section infer_sample_cut.
Context {tensor : Type}.
Variable tokenizer : string → Z → result tensor.
Variable generate : tensor → Z → result tensor.
Variable batch_decode : tensor → result (list string).
Variable self : LLMPipeline.t.

(** X4. When tokenizer, model and decoder answer, the prediction is the
    end of the first decoded string: that string is some prefix of
    [min(len(question) + 1, len(decoded))] characters followed by the
    prediction, whatever the prefix is. In particular the prediction is
    the empty string when the decoded string has at most
    [len(question) + 1] characters, and the other decoded strings and the
    other components of the sample play no part. *)
Theorem infer_sample_is_suffix (question : string) (rest : list string)
    (tokens output : tensor) (decoded : string) (others : list string) :
  tokenizer question (LLMPipeline._max_length self) = Ok tokens →
  generate tokens (LLMPipeline._max_length self) = Ok output →
  batch_decode output = Ok (decoded :: others) →
  ∃ prefix prediction,
    LLMPipeline.infer_sample tokenizer generate batch_decode self
      (question :: rest) = Ok (Some prediction) ∧
    decoded = prefix +:+ prediction ∧
    String.length prefix
      = Nat.min (String.length question + 1) (String.length decoded) ∧
    ((String.length decoded ≤ String.length question + 1)%nat →
     prediction = "").
Proof.
  intros Htok Hgen Hdec.
  destruct (slice_from_split (String.length question + 1) decoded)
    as (p & Hp & Hlen).
  exists p, (Py.slice_from (String.length question + 1) decoded).
  split; [by eapply infer_sample_success |].
  split; [exact Hp |]. split; [exact Hlen |]. apply slice_from_all.
Qed.

End infer_sample_cut.

Lemma infer_sample_is_suffix_witness :
  LLMPipeline.infer_sample Examples.echo_tokenizer MoreExamples.cut_short
    Examples.decode_one Examples.pipeline ["Hello"; "Hi"] = Ok (Some "").
Proof.
  destruct (infer_sample_is_suffix Examples.echo_tokenizer MoreExamples.cut_short
              Examples.decode_one Examples.pipeline "Hello" ["Hi"]
              "Hello" "He" "He" [] eq_refl eq_refl eq_refl)
    as (p & r & Hrun & _ & _ & Hempty).
  rewrite Hrun. rewrite Hempty; [reflexivity |]. simpl. lia.
Defined.

(** ** The preprocessor: [transform] on any table *)




(** The clean table of a raw table, cell by cell. *)
Lemma clean_table_of_raw (raw : DataFrame cell) :
  wf_frame raw →
  columns raw ≡ₚ ["instruction"; "input"; "output"; "text"] →
  let clean :=
    mkDataFrame (filter (λ c, c ∉ dropped) (renamed <$> columns raw))
      ((λ r : Z * list cell,
          (r.1, pd.project dropped (renamed <$> columns raw) r.2))
         <$> rows raw) in
  wf_frame clean ∧
  "question" ∈ columns clean ∧ "target" ∈ columns clean ∧
  ∀ i, cell_at clean i "question" = cell_at raw i "instruction" ∧
       cell_at clean i "target" = cell_at raw i "output".
Proof.
  intros [Hnodup Hrows] Hperm. simpl.
  pose proof (raw_columns_transformed _ Hperm) as Hclean.
  split; [split; simpl | split; [| split]].
  - rewrite Hclean. apply (bool_decide_unpack _). vm_compute. reflexivity.
  - rewrite Forall_fmap. eapply Forall_impl; [exact Hrows |].
    intros r Hr. simpl. apply project_length. by rewrite length_fmap.
  - simpl. rewrite Hclean. apply list_elem_of_here.
  - simpl. rewrite Hclean. apply list_elem_of_further, list_elem_of_here.
  - intros i. unfold cell_at. simpl. rewrite list_lookup_fmap.
    destruct (rows raw !! i) as [r|]; simpl; [| done].
    rewrite !row_cell_project
      by (apply (bool_decide_unpack _); vm_compute; reflexivity).
    split; apply row_cell_fmap; intros c Hc;
      apply (raw_columns_renamed _ _ Hperm Hc).
Qed.

(** X6. From the raw table to the samples: for a raw table, the dataset
    adapter built on what [transform] stores has one sample per row of the
    raw table, rows with empty cells and duplicated rows included, and
    the sample at index [i] is the pair of the "instruction" cell and the
    "output" cell of row [i] of the raw table. *)
Theorem dataset_of_transformed (self once : RawDataPreprocessor.t)
    (clean : DataFrame cell) :
  wf_frame (RawDataPreprocessor._raw_data self) →
  raw_columns (RawDataPreprocessor._raw_data self) →
  RawDataPreprocessor.transform self = Ok once →
  RawDataPreprocessor._data once = Some clean →
  TaskDataset.__len__ (TaskDataset.mk clean)
    = length (rows (RawDataPreprocessor._raw_data self)) ∧
  ∀ i : Z, (0 ≤ i < Z.of_nat (length (rows (RawDataPreprocessor._raw_data self))))%Z →
    ∃ q t,
      cell_at (RawDataPreprocessor._raw_data self) (Z.to_nat i) "instruction" = Some q ∧
      cell_at (RawDataPreprocessor._raw_data self) (Z.to_nat i) "output" = Some t ∧
      TaskDataset.__getitem__ (TaskDataset.mk clean) i = Ok (q, t).
Proof.
  intros Hwf Hcols Honce Hdata. unfold raw_columns in Hcols.
  rewrite transform_stores in Honce
    by (apply (raw_columns_elem _ _ Hcols); auto).
  injection Honce as <-. simpl in Hdata. injection Hdata as <-.
  destruct (clean_table_of_raw _ Hwf Hcols) as (Hwf' & Hq & Ht & Hcells).
  split.
  - unfold TaskDataset.__len__, pd.length. simpl. by rewrite length_fmap.
  - intros i Hi.
    destruct (getitem_cells (TaskDataset.mk _) i Hwf' Hq Ht) as (q & t & Hcq & Hct & Hget).
    { unfold TaskDataset.__len__, pd.length. simpl. by rewrite length_fmap. }
    exists q, t. simpl in Hcq, Hct.
    destruct (Hcells (Z.to_nat i)) as [Hcq' Hct'].
    rewrite <- Hcq', <- Hct'. auto.
Qed.

Lemma dataset_of_transformed_witness :
  ∃ clean,
    TaskDataset.__len__ (TaskDataset.mk clean) = 3 ∧
    TaskDataset.__getitem__ (TaskDataset.mk clean) 2 = Ok (Str "", Str "y").
Proof.
  assert (Hwf : wf_frame Examples.three_rows)
    by (apply (bool_decide_unpack _); vm_compute; reflexivity).
  assert (Hcols : raw_columns Examples.three_rows)
    by (unfold raw_columns; reflexivity).
  destruct (RawDataPreprocessor.transform
              (RawDataPreprocessor.mk Examples.three_rows None))
    as [once|e] eqn:H; [| vm_compute in H; discriminate H].
  destruct (RawDataPreprocessor._data once) as [clean|] eqn:Hdata;
    [| vm_compute in H; injection H as <-; discriminate Hdata].
  destruct (dataset_of_transformed
              (RawDataPreprocessor.mk Examples.three_rows None) once clean
              Hwf Hcols H Hdata) as [Hlen Hget].
  exists clean. split; [exact Hlen |].
  assert (Hi : (0 ≤ 2 < 3)%Z) by lia.
  destruct (Hget 2%Z Hi) as (q & t & Hq & Ht & Hrun).
  rewrite Hrun. vm_compute in Hq, Ht. congruence.
Defined.

(** ** The preprocessor: when [analyze] returns, and what *)

Lemma get_loc_elem (cols : list string) (label : string) (j : nat) :
  pd.get_loc cols label = Some j → label ∈ cols.
Proof.
  revert j. induction cols as [|c cols IH]; intros j; [discriminate |].
  destruct (decide (c = label)) as [->|Hne]; [intros _; by left |].
  rewrite get_loc_cons_ne by assumption.
  destruct (pd.get_loc cols label) as [k|]; [| discriminate].
  intros _. right. by apply (IH k).
Qed.

Lemma get_loc_None (cols : list string) (label : string) :
  label ∉ cols → pd.get_loc cols label = None.
Proof.
  intros Hnin. destruct (pd.get_loc cols label) as [j|] eqn:Hj; [| reflexivity].
  destruct Hnin. by apply (get_loc_elem _ _ j).
Qed.

Lemma reset_index_clash (df : DataFrame cell) :
  "index" ∈ columns df → "level_0" ∈ columns df →
  pd.reset_index df = Raise ValueError.
Proof.
  intros Hi Hl. unfold pd.reset_index. cbv zeta.
  destruct (decide ("index" ∈ columns df)); [| contradiction].
  by rewrite decide_True.
Qed.

(** [min] and [max] ask every item for its key. *)
Lemma select_loop_keys {A} (better : nat → nat → bool) (key : A → result nat)
    (best : A) (kbest : nat) (l : list A) (b : A) :
  Py.select_loop better key best kbest l = Ok b →
  Forall (λ y, returns (key y)) l.
Proof.
  revert best kbest. induction l as [|y l IH]; intros best kbest Hrun.
  - constructor.
  - simpl in Hrun. destruct (key y) as [ky|e] eqn:Hy; [| discriminate].
    simpl in Hrun. constructor; [by eexists |].
    destruct (better ky kbest); by eapply IH.
Qed.

Lemma select_keys {A} (better : nat → nat → bool) (key : A → result nat)
    (l : list A) (b : A) :
  Py.select better key l = Ok b →
  l ≠ [] ∧ Forall (λ y, returns (key y)) l.
Proof.
  destruct l as [|x l]; [discriminate |]. simpl. intros Hrun.
  destruct (key x) as [kx|e] eqn:Hx; [| discriminate]. simpl in Hrun.
  split; [discriminate |]. constructor; [by eexists |].
  by eapply select_loop_keys.
Qed.

Lemma len_returns (c : cell) : returns (len c) → len c = Ok (cell_length c).
Proof. destruct c; intros [n Hn]; [reflexivity | discriminate..]. Qed.

Lemma len_text (c : cell) :
  len c = Ok (cell_length c) → c = Str "" ∨ (1 ≤ cell_length c)%nat.
Proof.
  destruct c as [s|z|]; [| discriminate..]. intros _.
  destruct s; [by left | right; simpl; lia].
Qed.

(** The samples, seen from a row. *)
Lemma sample_of_row (raw : DataFrame cell) (j : nat) (c : cell) :
  c ∈ omap (λ r : Z * list cell, r.2 !! j)
        (filter (λ r : Z * list cell, complete_row r.2) (rows raw)) ↔
  ∃ r, r ∈ rows raw ∧ complete_row r.2 ∧ r.2 !! j = Some c.
Proof.
  rewrite list_elem_of_omap. split.
  - intros (r & Hr & Hc). apply list_elem_of_filter in Hr as [Hcomplete Hr].
    by exists r.
  - intros (r & Hr & Hcomplete & Hc). exists r.
    split; [by apply list_elem_of_filter | exact Hc].
Qed.

(** How [analyze] runs once the instruction column is found and its
    samples are strings. *)
Lemma analyze_runs (self : RawDataPreprocessor.t) (j : nat) :
  pd.get_loc (columns (RawDataPreprocessor._raw_data self)) "instruction" = Some j →
  ¬ ("index" ∈ columns (RawDataPreprocessor._raw_data self) ∧
     "level_0" ∈ columns (RawDataPreprocessor._raw_data self)) →
  let samples :=
    omap (λ r : Z * list cell, r.2 !! j)
      (filter (λ r : Z * list cell, complete_row r.2)
         (rows (RawDataPreprocessor._raw_data self))) in
  samples ≠ [] →
  Forall (λ c, len c = Ok (cell_length c)) samples →
  ∃ shortest longest,
    shortest ∈ samples ∧ longest ∈ samples ∧
    (∀ c, c ∈ samples →
       (cell_length shortest ≤ cell_length c ≤ cell_length longest)%nat) ∧
    RawDataPreprocessor.analyze self
    = Ok (report_of
            (length (rows (RawDataPreprocessor._raw_data self)))
            (length (columns (RawDataPreprocessor._raw_data self)))
            (pd.sum_bool (pd.duplicated (RawDataPreprocessor._raw_data self)))
            (pd.sum (pd.sum_columns
               (pd.isna (pd.replace (Str "") NA
                  (RawDataPreprocessor._raw_data self)))))
            (cell_length shortest) (cell_length longest)).
Proof.
  destruct self as [raw data]. simpl. intros Hj Hfree Hsome Hkeys.
  destruct (reset_index_Ok (pd.dropna (pd.replace (Str "") NA raw)) Hfree)
    as (name & Hname & Hreset).
  rewrite dropna_replace_rows, dropna_replace_columns in Hreset.
  assert (Hne : name ≠ "instruction") by (destruct Hname; subst; discriminate).
  pose proof (getitem_reset name "instruction" (columns raw)
                (filter (λ r, complete_row r.2) (rows raw)) Hne) as Hget.
  rewrite Hj in Hget. destruct Hget as (s & Hget & Hvalues).
  rewrite <- Hvalues in Hsome, Hkeys.
  destruct (min_shortest _ Hsome Hkeys) as (shortest & Hmin & Hmin_in & Hmin_le).
  destruct (max_longest _ Hsome Hkeys) as (longest & Hmax & Hmax_in & Hmax_ge).
  rewrite Forall_forall in Hkeys.
  exists shortest, longest. rewrite <- Hvalues.
  split; [exact Hmin_in |]. split; [exact Hmax_in |]. split.
  - intros c Hc. split; [by apply Hmin_le | by apply Hmax_ge].
  - unfold RawDataPreprocessor.analyze. simpl.
    step Hreset. step Hget. step Hmin. step (Hkeys _ Hmin_in).
    step Hmax. by step (Hkeys _ Hmax_in).
Qed.

(** What a returned report tells about the run that made it. *)
Lemma analyze_Ok_inv (self : RawDataPreprocessor.t) (report : gmap string nat) :
  RawDataPreprocessor.analyze self = Ok report →
  ∃ j,
    pd.get_loc (columns (RawDataPreprocessor._raw_data self)) "instruction" = Some j ∧
    ¬ ("index" ∈ columns (RawDataPreprocessor._raw_data self) ∧
       "level_0" ∈ columns (RawDataPreprocessor._raw_data self)) ∧
    omap (λ r : Z * list cell, r.2 !! j)
      (filter (λ r : Z * list cell, complete_row r.2)
         (rows (RawDataPreprocessor._raw_data self))) ≠ [] ∧
    Forall (λ c, len c = Ok (cell_length c))
      (omap (λ r : Z * list cell, r.2 !! j)
         (filter (λ r : Z * list cell, complete_row r.2)
            (rows (RawDataPreprocessor._raw_data self)))).
Proof.
  destruct self as [raw data]. simpl. intros Hrun.
  assert (Hfree : ¬ ("index" ∈ columns raw ∧ "level_0" ∈ columns raw)).
  { intros [Hi Hl]. unfold RawDataPreprocessor.analyze in Hrun. simpl in Hrun.
    rewrite reset_index_clash in Hrun by assumption. discriminate. }
  destruct (reset_index_Ok (pd.dropna (pd.replace (Str "") NA raw)) Hfree)
    as (name & Hname & Hreset).
  rewrite dropna_replace_rows, dropna_replace_columns in Hreset.
  assert (Hne : name ≠ "instruction") by (destruct Hname; subst; discriminate).
  pose proof (getitem_reset name "instruction" (columns raw)
                (filter (λ r, complete_row r.2) (rows raw)) Hne) as Hget.
  unfold RawDataPreprocessor.analyze in Hrun. simpl in Hrun.
  rewrite Hreset in Hrun. simpl in Hrun.
  destruct (pd.get_loc (columns raw) "instruction") as [j|] eqn:Hj.
  - exists j. split; [reflexivity |]. split; [exact Hfree |].
    destruct Hget as (s & Hget & Hvalues).
    rewrite Hget in Hrun. simpl in Hrun. rewrite <- Hvalues.
    destruct (Py.min (pd.values s) len) as [shortest|e] eqn:Hmin;
      [| discriminate].
    apply select_keys in Hmin as [Hsome Hkeys].
    split; [exact Hsome |].
    eapply Forall_impl; [exact Hkeys |]. intros c. apply len_returns.
  - rewrite Hget in Hrun. discriminate.
Qed.

(** X7. On a well-formed table, [analyze] returns a report exactly when
    the labels "index" and "level_0" are not both taken, there is a column
    "instruction", some row has no empty cell, and the instruction cell of
    every row without an empty cell is a string. *)
Theorem analyze_returns_iff (self : RawDataPreprocessor.t) :
  wf_frame (RawDataPreprocessor._raw_data self) →
  returns (RawDataPreprocessor.analyze self) ↔
  ¬ ("index" ∈ columns (RawDataPreprocessor._raw_data self) ∧
     "level_0" ∈ columns (RawDataPreprocessor._raw_data self)) ∧
  "instruction" ∈ columns (RawDataPreprocessor._raw_data self) ∧
  (∃ r, r ∈ rows (RawDataPreprocessor._raw_data self) ∧ complete_row r.2) ∧
  (∀ r, r ∈ rows (RawDataPreprocessor._raw_data self) → complete_row r.2 →
     ∃ s, row_cell (columns (RawDataPreprocessor._raw_data self)) r.2
            "instruction" = Some (Str s)).
Proof.
  intros [_ Hrows]. rewrite Forall_forall in Hrows. split.
  - intros [report Hrun].
    destruct (analyze_Ok_inv _ _ Hrun) as (j & Hj & Hfree & Hsome & Hkeys).
    rewrite Forall_forall in Hkeys.
    split; [exact Hfree |]. split; [by apply (get_loc_elem _ _ j) |]. split.
    + destruct (omap _ _) as [|c l] eqn:Hsamples; [congruence |].
      assert (Hc : c ∈ c :: l) by by left.
      rewrite <- Hsamples in Hc.
      apply sample_of_row in Hc as (r & Hr & Hcomplete & _). by exists r.
    + intros r Hr Hcomplete.
      rewrite (row_cell_get_loc _ _ _ _ Hj).
      destruct (lookup_lt_is_Some_2 r.2 j) as [c Hc].
      { rewrite (Hrows r Hr). by eapply get_loc_lt. }
      assert (Hsample : c ∈ omap (λ r : Z * list cell, r.2 !! j)
                (filter (λ r : Z * list cell, complete_row r.2)
                   (rows (RawDataPreprocessor._raw_data self))))
        by (apply sample_of_row; by exists r).
      specialize (Hkeys c Hsample).
      destruct c as [s|z|]; [by exists s | discriminate..].
  - intros (Hfree & Hinstr & (r & Hr & Hcomplete) & Htext).
    destruct (get_loc_is_Some _ _ Hinstr) as [j Hj].
    destruct (analyze_runs self j Hj Hfree) as (shortest & longest & _ & _ & _ & Hrun).
    + destruct (Htext r Hr Hcomplete) as [s Hs].
      rewrite (row_cell_get_loc _ _ _ _ Hj) in Hs.
      intros Hnil.
      assert (Hin : Str s ∈ omap (λ r : Z * list cell, r.2 !! j)
                (filter (λ r : Z * list cell, complete_row r.2)
                   (rows (RawDataPreprocessor._raw_data self))))
        by (apply sample_of_row; by exists r).
      rewrite Hnil in Hin. by apply elem_of_nil in Hin.
    + apply Forall_forall. intros c Hc.
      apply sample_of_row in Hc as (r' & Hr' & Hcomplete' & Hc).
      destruct (Htext r' Hr' Hcomplete') as [s Hs].
      rewrite (row_cell_get_loc _ _ _ _ Hj) in Hs.
      rewrite Hs in Hc. by injection Hc as <-.
    + by eexists.
Qed.

Lemma analyze_returns_iff_witness :
  returns (RawDataPreprocessor.analyze
             (RawDataPreprocessor.mk MoreExamples.two_samples None)) ∧
  ¬ returns (RawDataPreprocessor.analyze
               (RawDataPreprocessor.mk MoreExamples.index_taken None)).
Proof.
  assert (Hwf : wf_frame MoreExamples.two_samples)
    by (apply (bool_decide_unpack _); vm_compute; reflexivity).
  assert (Hwf' : wf_frame MoreExamples.index_taken)
    by (apply (bool_decide_unpack _); vm_compute; reflexivity).
  split.
  - apply (proj2 (analyze_returns_iff
                    (RawDataPreprocessor.mk MoreExamples.two_samples None) Hwf)).
    split; [apply (bool_decide_unpack _); vm_compute; reflexivity |].
    split; [apply (bool_decide_unpack _); vm_compute; reflexivity |].
    split.
    + exists (0%Z, [Str "Sum"; Str "x"]).
      split; apply (bool_decide_unpack _); vm_compute; reflexivity.
    + intros r Hr Hcomplete.
      repeat (apply elem_of_cons in Hr as [->|Hr]).
      * by exists "Sum".
      * by exists "Multiply".
      * apply Forall_cons in Hcomplete as [Hna _]. destruct Hna. by right.
      * by apply elem_of_nil in Hr.
  - intros Hreturns.
    apply (proj1 (analyze_returns_iff
                    (RawDataPreprocessor.mk MoreExamples.index_taken None) Hwf'))
      in Hreturns as [Hfree _].
    apply Hfree. split; apply (bool_decide_unpack _); vm_compute; reflexivity.
Defined.

(** A key that fails makes [min] and [max] fail in the same way. *)
Lemma select_loop_key_fails {A} (better : nat → nat → bool)
    (key : A → result nat) (e : exn) (best : A) (kbest : nat) (l : list A) :
  Forall (λ y, key y = Raise e ∨ returns (key y)) l →
  Exists (λ y, key y = Raise e) l →
  Py.select_loop better key best kbest l = Raise e.
Proof.
  intros Hall. revert best kbest.
  induction Hall as [|y l Hy Hl IH]; intros best kbest Hex.
  - by apply Exists_nil in Hex.
  - simpl. destruct Hy as [Hy|[ky Hy]]; [by rewrite Hy |].
    step Hy. apply Exists_cons in Hex as [Hex|Hex]; [congruence |].
    destruct (better ky kbest); by apply IH.
Qed.

Lemma select_key_fails {A} (better : nat → nat → bool)
    (key : A → result nat) (e : exn) (l : list A) :
  Forall (λ y, key y = Raise e ∨ returns (key y)) l →
  Exists (λ y, key y = Raise e) l →
  Py.select better key l = Raise e.
Proof.
  intros Hall Hex. destruct l as [|x l]; [by apply Exists_nil in Hex |].
  apply Forall_cons in Hall as [Hx Hl]. simpl.
  destruct Hx as [Hx|[kx Hx]]; [by rewrite Hx |].
  step Hx. apply Exists_cons in Hex as [Hex|Hex]; [congruence |].
  by apply select_loop_key_fails.
Qed.

Lemma len_outcome (c : cell) : len c = Raise TypeError ∨ returns (len c).
Proof. destruct c; [right; by eexists | by left..]. Qed.

(** X8. The failures of [analyze], in the order in which they arise:
    a value error when both labels "index" and "level_0" are taken;
    otherwise a key error when there is no column "instruction";
    otherwise a type error when the instruction cell of some row without
    an empty cell is a number. *)
Theorem analyze_failures (self : RawDataPreprocessor.t) :
  ("index" ∈ columns (RawDataPreprocessor._raw_data self) →
   "level_0" ∈ columns (RawDataPreprocessor._raw_data self) →
   RawDataPreprocessor.analyze self = Raise ValueError) ∧
  (¬ ("index" ∈ columns (RawDataPreprocessor._raw_data self) ∧
      "level_0" ∈ columns (RawDataPreprocessor._raw_data self)) →
   ("instruction" ∉ columns (RawDataPreprocessor._raw_data self) →
    RawDataPreprocessor.analyze self = Raise KeyError) ∧
   ((∃ r z, r ∈ rows (RawDataPreprocessor._raw_data self) ∧ complete_row r.2 ∧
            row_cell (columns (RawDataPreprocessor._raw_data self)) r.2
              "instruction" = Some (Int z)) →
    RawDataPreprocessor.analyze self = Raise TypeError)).
Proof.
  destruct self as [raw data]. simpl. split.
  - intros Hi Hl. unfold RawDataPreprocessor.analyze. simpl.
    by rewrite reset_index_clash.
  - intros Hfree.
    destruct (reset_index_Ok (pd.dropna (pd.replace (Str "") NA raw)) Hfree)
      as (name & Hname & Hreset).
    rewrite dropna_replace_rows, dropna_replace_columns in Hreset.
    assert (Hne : name ≠ "instruction") by (destruct Hname; subst; discriminate).
    pose proof (getitem_reset name "instruction" (columns raw)
                  (filter (λ r, complete_row r.2) (rows raw)) Hne) as Hget.
    split.
    + intros Hnone. rewrite (get_loc_None _ _ Hnone) in Hget.
      unfold RawDataPreprocessor.analyze. simpl. step Hreset. by step Hget.
    + intros (r & z & Hr & Hcomplete & Hcell).
      unfold row_cell in Hcell.
      destruct (pd.get_loc (columns raw) "instruction") as [j|]; [| discriminate].
      simpl in Hcell. destruct Hget as (s & Hget & Hvalues).
      unfold RawDataPreprocessor.analyze. simpl. step Hreset. step Hget.
      unfold Py.min. rewrite (select_key_fails _ _ TypeError); [reflexivity | |].
      * apply Forall_forall. intros c _. apply len_outcome.
      * apply Exists_exists. exists (Int z). split; [| reflexivity].
        rewrite Hvalues. apply sample_of_row. by exists r.
Qed.

Lemma analyze_failures_witness :
  RawDataPreprocessor.analyze
    (RawDataPreprocessor.mk MoreExamples.index_taken None) = Raise ValueError ∧
  RawDataPreprocessor.analyze
    (RawDataPreprocessor.mk Examples.five_rows None) = Raise KeyError ∧
  RawDataPreprocessor.analyze
    (RawDataPreprocessor.mk
       (mkDataFrame ["instruction"] [(0%Z, [Str "Sum"]); (1%Z, [Int 7])]) None)
    = Raise TypeError.
Proof.
  split; [| split].
  - apply (proj1 (analyze_failures
                    (RawDataPreprocessor.mk MoreExamples.index_taken None)));
      apply (bool_decide_unpack _); vm_compute; reflexivity.
  - apply (proj2 (analyze_failures
                    (RawDataPreprocessor.mk Examples.five_rows None)));
      apply (bool_decide_unpack _); vm_compute; reflexivity.
  - apply (proj2 (analyze_failures
                    (RawDataPreprocessor.mk
                       (mkDataFrame ["instruction"]
                          [(0%Z, [Str "Sum"]); (1%Z, [Int 7])]) None))).
    + apply (bool_decide_unpack _). vm_compute. reflexivity.
    + exists (1%Z, [Int 7]), 7%Z. split; [| split].
      * apply (bool_decide_unpack _). vm_compute. reflexivity.
      * apply (bool_decide_unpack _). vm_compute. reflexivity.
      * reflexivity.
Defined.

(** ** The preprocessor: what a report satisfies *)

(** Every report comes from a run with a shortest and a longest sample. *)
Lemma analyze_Ok_shape (self : RawDataPreprocessor.t) (report : gmap string nat) :
  RawDataPreprocessor.analyze self = Ok report →
  ∃ j shortest longest,
    let samples :=
      omap (λ r : Z * list cell, r.2 !! j)
        (filter (λ r : Z * list cell, complete_row r.2)
           (rows (RawDataPreprocessor._raw_data self))) in
    shortest ∈ samples ∧ longest ∈ samples ∧
    len shortest = Ok (cell_length shortest) ∧
    (cell_length shortest ≤ cell_length longest)%nat ∧
    report
    = report_of
        (length (rows (RawDataPreprocessor._raw_data self)))
        (length (columns (RawDataPreprocessor._raw_data self)))
        (pd.sum_bool (pd.duplicated (RawDataPreprocessor._raw_data self)))
        (pd.sum (pd.sum_columns
           (pd.isna (pd.replace (Str "") NA
              (RawDataPreprocessor._raw_data self)))))
        (cell_length shortest) (cell_length longest).
Proof.
  intros Hrun.
  destruct (analyze_Ok_inv _ _ Hrun) as (j & Hj & Hfree & Hsome & Hkeys).
  destruct (analyze_runs self j Hj Hfree Hsome Hkeys)
    as (shortest & longest & Hmin & Hmax & Hbounds & Hrun').
  rewrite Hrun in Hrun'. injection Hrun' as ->.
  exists j, shortest, longest. simpl.
  split; [exact Hmin |]. split; [exact Hmax |]. split.
  - rewrite Forall_forall in Hkeys. by apply Hkeys.
  - split; [| reflexivity]. by apply Hbounds.
Qed.

Lemma remove_dups_length_le {A} `{EqDecision A} (l : list A) :
  (length (remove_dups l) ≤ length l)%nat.
Proof.
  induction l as [|x l IH]; [reflexivity |]. simpl.
  destruct (decide_rel elem_of x l); simpl; lia.
Qed.

Lemma remove_dups_length_NoDup {A} `{EqDecision A} (l : list A) :
  length (remove_dups l) = length l ↔ NoDup l.
Proof.
  induction l as [|x l IH]; [split; [constructor | reflexivity] |].
  simpl. destruct (decide_rel elem_of x l) as [Hin|Hnin].
  - pose proof (remove_dups_length_le l). split; [lia |].
    intros Hnodup. apply NoDup_cons in Hnodup as [Hnin _]. contradiction.
  - simpl. rewrite NoDup_cons. split.
    + intros Hlen. split; [assumption |]. apply IH. lia.
    + intros [_ Hnodup]. apply IH in Hnodup. lia.
Qed.

Lemma remove_dups_nonempty {A} `{EqDecision A} (l : list A) :
  l ≠ [] → (1 ≤ length (remove_dups l))%nat.
Proof.
  destruct l as [|x l]; [congruence |]. intros _.
  assert (Hx : x ∈ remove_dups (x :: l)) by (apply elem_of_remove_dups; by left).
  destruct (remove_dups (x :: l)); [by apply elem_of_nil in Hx | simpl; lia].
Qed.

(** X9. In every report that [analyze] returns, the duplicate count is
    smaller than the sample count, and the minimal sample length is at
    least 1 and at most the maximal sample length: an empty instruction is
    never the shortest sample, its row is left out. *)
Theorem analyze_report_bounds (self : RawDataPreprocessor.t)
    (report : gmap string nat) :
  RawDataPreprocessor.analyze self = Ok report →
  ∃ samples duplicates mn mx,
    report !! "dataset_number_of_samples" = Some samples ∧
    report !! "dataset_duplicates" = Some duplicates ∧
    report !! "dataset_sample_min_len" = Some mn ∧
    report !! "dataset_sample_max_len" = Some mx ∧
    (duplicates < samples)%nat ∧ (1 ≤ mn)%nat ∧ (mn ≤ mx)%nat.
Proof.
  intros Hrun.
  destruct (analyze_Ok_shape _ _ Hrun)
    as (j & shortest & longest & Hmin & _ & Hlen & Hle & ->).
  exists (length (rows (RawDataPreprocessor._raw_data self))),
    (pd.sum_bool (pd.duplicated (RawDataPreprocessor._raw_data self))),
    (cell_length shortest), (cell_length longest).
  do 4 (split; [reflexivity |]). split; [| split; [| exact Hle]]; cycle 1.
  - apply sample_of_row in Hmin as (r & _ & Hcomplete & Hcell).
    destruct (len_text _ Hlen) as [->|Hpos]; [| exact Hpos].
    unfold complete_row in Hcomplete.
    destruct (Forall_lookup_1 _ _ _ _ Hcomplete Hcell). by left.
  - rewrite duplicated_count.
    apply sample_of_row in Hmin as (r & Hr & _).
    assert (Hrows : (rows (RawDataPreprocessor._raw_data self)).*2 ≠ []).
    { intros Hnil. apply fmap_nil_inv in Hnil. rewrite Hnil in Hr.
      by apply elem_of_nil in Hr. }
    pose proof (remove_dups_nonempty _ Hrows).
    pose proof (remove_dups_length_le
                  (rows (RawDataPreprocessor._raw_data self)).*2) as Hdup.
    rewrite length_fmap in Hdup. lia.
Qed.

Lemma analyze_report_bounds_witness :
  ∃ report mn mx,
    RawDataPreprocessor.analyze
      (RawDataPreprocessor.mk MoreExamples.two_samples None) = Ok report ∧
    report !! "dataset_sample_min_len" = Some mn ∧
    report !! "dataset_sample_max_len" = Some mx ∧
    (1 ≤ mn)%nat ∧ (mn ≤ mx)%nat.
Proof.
  destruct (RawDataPreprocessor.analyze
              (RawDataPreprocessor.mk MoreExamples.two_samples None))
    as [report|e] eqn:Hrun; [| vm_compute in Hrun; discriminate Hrun].
  destruct (analyze_report_bounds _ report Hrun)
    as (n & d & mn & mx & _ & _ & Hmn & Hmx & _ & Hpos & Hle).
  exists report, mn, mx. auto.
Defined.

(** X10. In a report that [analyze] returns, the duplicate count is 0
    exactly when the rows of the raw table are pairwise different (two
    missing cells count as equal). *)
Theorem analyze_no_duplicates_iff (self : RawDataPreprocessor.t)
    (report : gmap string nat) :
  RawDataPreprocessor.analyze self = Ok report →
  report !! "dataset_duplicates" = Some 0 ↔
  NoDup (rows (RawDataPreprocessor._raw_data self)).*2.
Proof.
  intros Hrun.
  destruct (analyze_Ok_shape _ _ Hrun) as (j & shortest & longest & _ & _ & _ & _ & ->).
  change (Some (pd.sum_bool (pd.duplicated (RawDataPreprocessor._raw_data self)))
          = Some 0 ↔ NoDup (rows (RawDataPreprocessor._raw_data self)).*2).
  rewrite duplicated_count, <- remove_dups_length_NoDup.
  pose proof (remove_dups_length_le
                (rows (RawDataPreprocessor._raw_data self)).*2) as Hle.
  rewrite length_fmap in *. split.
  - intros [= Hzero]. lia.
  - intros Heq. f_equal. lia.
Qed.

Lemma analyze_no_duplicates_iff_witness :
  ∃ report,
    RawDataPreprocessor.analyze
      (RawDataPreprocessor.mk MoreExamples.two_samples None) = Ok report ∧
    report !! "dataset_duplicates" = Some 0.
Proof.
  destruct (RawDataPreprocessor.analyze
              (RawDataPreprocessor.mk MoreExamples.two_samples None))
    as [report|e] eqn:Hrun; [| vm_compute in Hrun; discriminate Hrun].
  exists report. split; [reflexivity |].
  apply (proj2 (analyze_no_duplicates_iff _ report Hrun)).
  apply (bool_decide_unpack _). vm_compute. reflexivity.
Defined.

Lemma filter_length_zero {A} (P : A → Prop) `{∀ x, Decision (P x)} (l : list A) :
  length (filter P l) = 0 ↔ Forall (λ x, ¬ P x) l.
Proof.
  induction l as [|x l IH]; [split; [constructor | reflexivity] |].
  rewrite filter_cons, Forall_cons. destruct (decide (P x)); simpl.
  - split; [discriminate | tauto].
  - rewrite IH. tauto.
Qed.

Lemma Forall_concat_rows {A} (Q : A → Prop) (ll : list (list A)) :
  Forall Q (concat ll) ↔ Forall (Forall Q) ll.
Proof.
  induction ll as [|l ll IH]; [split; constructor |].
  cbn [concat]. rewrite Forall_app, Forall_cons, IH. reflexivity.
Qed.

(** X11. In a report that [analyze] returns for a well-formed table, the
    empty count is 0 exactly when no row has an empty cell, that is when
    the minimal and maximal lengths are taken over all rows. *)
Theorem analyze_no_empty_iff (self : RawDataPreprocessor.t)
    (report : gmap string nat) :
  wf_frame (RawDataPreprocessor._raw_data self) →
  RawDataPreprocessor.analyze self = Ok report →
  (report !! "dataset_empty_rows" = Some 0 ↔
   Forall (λ r, complete_row r.2) (rows (RawDataPreprocessor._raw_data self))) ∧
  (report !! "dataset_empty_rows" = Some 0 →
   rows (pd.dropna (pd.replace (Str "") NA (RawDataPreprocessor._raw_data self)))
   = rows (RawDataPreprocessor._raw_data self)).
Proof.
  intros [_ Hrows] Hrun.
  destruct (analyze_Ok_shape _ _ Hrun) as (j & shortest & longest & _ & _ & _ & _ & ->).
  change (report_of _ _ _ _ _ _ !! "dataset_empty_rows")
    with (Some (pd.sum (pd.sum_columns
            (pd.isna (pd.replace (Str "") NA
               (RawDataPreprocessor._raw_data self)))))).
  rewrite isna_replace_count by assumption. unfold empty_cells.
  assert (Hiff : length (filter empty_cell
                   (concat (rows (RawDataPreprocessor._raw_data self)).*2)) = 0 ↔
                 Forall (λ r, complete_row r.2)
                   (rows (RawDataPreprocessor._raw_data self))).
  { rewrite filter_length_zero, Forall_concat_rows, Forall_fmap. reflexivity. }
  split.
  - rewrite <- Hiff. split; [by intros [= ->] | by intros ->].
  - intros [= Hzero]. apply Hiff in Hzero.
    rewrite dropna_replace_rows. by apply filter_everything.
Qed.

Lemma analyze_no_empty_iff_witness :
  ∃ report n,
    RawDataPreprocessor.analyze
      (RawDataPreprocessor.mk MoreExamples.two_samples None) = Ok report ∧
    report !! "dataset_empty_rows" = Some n ∧ n ≠ 0.
Proof.
  assert (Hwf : wf_frame MoreExamples.two_samples)
    by (apply (bool_decide_unpack _); vm_compute; reflexivity).
  destruct (RawDataPreprocessor.analyze
              (RawDataPreprocessor.mk MoreExamples.two_samples None))
    as [report|e] eqn:Hrun; [| vm_compute in Hrun; discriminate Hrun].
  destruct (report !! "dataset_empty_rows") as [n|] eqn:Hn;
    [| vm_compute in Hrun; injection Hrun as <-; discriminate Hn].
  exists report, n. split; [reflexivity |]. split; [exact Hn |].
  intros ->.
  apply (proj1 (proj1 (analyze_no_empty_iff
                  (RawDataPreprocessor.mk MoreExamples.two_samples None)
                  report Hwf Hrun))) in Hn.
  revert Hn. apply (bool_decide_unpack _). vm_compute. reflexivity.
Defined.
